(* ===================================================================== *)
(* Verification of app.py, the TradingView webhook to WebSocket relay    *)
(* (py接tv信号转发/py信号转发服务/app.py).                                 *)
(*                                                                       *)
(* The file is a shallow embedding: Python values, the builtins the      *)
(* module calls (str methods, int(), float(), json), then the module's   *)
(* functions under their own names, then the properties.                 *)
(* ===================================================================== *)

From Stdlib Require Import ZArith String Ascii Lia.
From stdpp Require Import base option list gmap sets.

Set Default Proof Using "Type".
Set Warnings "-register-all,-clear-no-such-hyp".
Local Open Scope Z_scope.

(* --------------------------------------------------------------------- *)
(* 1. Python strings                                                     *)
(* --------------------------------------------------------------------- *)

(* A Python str is a sequence of Unicode code points. *)
Abbreviation codepoint := N.
Abbreviation pystr := (list N).

(* ASCII literals of the source, written as Rocq strings. *)
Definition str (s : string) : pystr := N_of_ascii <$> list_ascii_of_string s.
Arguments str _%_string.

(* The three non-ASCII literals of the handler, code point by code point:
   '未知品种', '未知价格' and '无动作'. *)
Definition UNKNOWN_TICKER : pystr := [26410; 30693; 21697; 31181]%N.
Definition UNKNOWN_PRICE : pystr := [26410; 30693; 20215; 26684]%N.
Definition NO_ACTION : pystr := [26080; 21160; 20316]%N.

(* What the interpreter takes from the Unicode character database for code
   points outside ASCII: the full uppercase mapping of str.upper() and the
   decimal-digit value used by int() and float().  ASCII is fixed below. *)
Class UnicodeDB := {
  uc_toupper : codepoint → pystr;
  uc_decimal : codepoint → option Z
}.

(* str.isspace() of one code point (the list is closed: these 29). *)
Definition isspace (c : codepoint) : bool :=
  ((9 <=? c) && (c <=? 13) || (28 <=? c) && (c <=? 32) ||
   (c =? 133) || (c =? 160) || (c =? 5760) ||
   (8192 <=? c) && (c <=? 8202) || (c =? 8232) || (c =? 8233) ||
   (c =? 8239) || (c =? 8287) || (c =? 12288))%N.

Fixpoint lstrip (s : pystr) : pystr :=
  match s with
  | c :: s' => if isspace c then lstrip s' else s
  | [] => []
  end.

Definition rstrip (s : pystr) : pystr := reverse (lstrip (reverse s)).

(* str.strip() *)
Definition strip (s : pystr) : pystr := rstrip (lstrip s).

Section StrUpper.
Context `{UnicodeDB}.

Definition upper_cp (c : codepoint) : pystr :=
  if ((97 <=? c) && (c <=? 122))%N then [(c - 32)%N]
  else if (c <? 128)%N then [c]
  else uc_toupper c.

(* str.upper(): the full mapping is applied code point by code point. *)
Definition upper (s : pystr) : pystr := s ≫= upper_cp.
End StrUpper.

(* str.startswith(prefix) *)
Fixpoint startswith (s prefix : pystr) : bool :=
  match prefix, s with
  | [], _ => true
  | p :: prefix', c :: s' => (p =? c)%N && startswith s' prefix'
  | _ :: _, [] => false
  end.

(* `sep in s` for a one-character separator *)
Definition contains (sep : codepoint) (s : pystr) : bool :=
  bool_decide (sep ∈ s).

(* s.split(sep, 1) for a one-character separator: the text before the first
   separator and the text after it, or the whole string alone. *)
Fixpoint split_once (sep : codepoint) (s : pystr) : list pystr :=
  match s with
  | [] => [[]]
  | c :: s' =>
      if (c =? sep)%N then [[]; s']
      else match split_once sep s' with
           | before :: rest => (c :: before) :: rest
           | [] => [[c]]
           end
  end.

(* --------------------------------------------------------------------- *)
(* 2. Exceptions and results                                             *)
(* --------------------------------------------------------------------- *)

(* Exception classes (all below Exception).  ExcOther stands for classes
   of libraries that the module only catches with `except Exception`. *)
Inductive exc_class :=
  | ExcValueError
  | ExcJSONDecodeError      (* json.JSONDecodeError, a ValueError *)
  | ExcTypeError
  | ExcOverflowError
  | ExcAttributeError
  | ExcRecursionError       (* a RuntimeError *)
  | ExcOther (name : string).

Record pyexc := PyExc { exc_cls : exc_class; exc_msg : pystr }.

(* issubclass(c, base) *)
Definition exc_subclass (c base : exc_class) : bool :=
  match c, base with
  | ExcValueError, ExcValueError
  | ExcJSONDecodeError, ExcValueError
  | ExcJSONDecodeError, ExcJSONDecodeError
  | ExcTypeError, ExcTypeError
  | ExcOverflowError, ExcOverflowError
  | ExcAttributeError, ExcAttributeError
  | ExcRecursionError, ExcRecursionError => true
  | ExcOther a, ExcOther b => bool_decide (a = b)
  | _, _ => false
  end.

Inductive result (A : Type) :=
  | Ok (a : A)
  | Raise (e : pyexc).
Arguments Ok {A} a.
Arguments Raise {A} e.

#[export] Instance result_ret : MRet result := λ A a, Ok a.
#[export] Instance result_bind : MBind result := λ A B f m,
  match m with
  | Ok a => f a
  | Raise e => Raise e
  end.

Definition raise {A} (c : exc_class) (msg : string) : result A :=
  Raise (PyExc c (str msg)).

(* try: body  except (c1, c2, ...): handler *)
Definition try_except {A} (body : result A) (classes : list exc_class)
    (handler : pyexc → result A) : result A :=
  match body with
  | Ok a => Ok a
  | Raise e =>
      if existsb (exc_subclass (exc_cls e)) classes then handler e
      else Raise e
  end.

(* try: body  except Exception: handler *)
Definition try_except_Exception {A} (body : result A)
    (handler : pyexc → result A) : result A :=
  match body with
  | Ok a => Ok a
  | Raise e => handler e
  end.

Definition is_ok {A} (r : result A) : bool :=
  match r with Ok _ => true | Raise _ => false end.

(* --------------------------------------------------------------------- *)
(* 3. Floats                                                             *)
(* --------------------------------------------------------------------- *)

(* A Python float is an IEEE 754 binary64 number.  A finite one is
   (-1)^neg * m * 2^e with 0 <= m < 2^53 and -1074 <= e <= 971, and
   e = -1074 whenever m < 2^52, which makes the representation unique. *)
Inductive pyfloat :=
  | FFinite (neg : bool) (m : Z) (e : Z)
  | FInf (neg : bool)
  | FNan.

#[export] Instance pyfloat_eq_dec : EqDecision pyfloat.
Proof. solve_decision. Defined.

Definition fzero (neg : bool) : pyfloat := FFinite neg 0 (-1074).

(* Rounding of the positive rational n/d to the nearest binary64 number,
   ties to even; None on overflow. *)
Definition round_pos (n d : Z) : option (Z * Z) :=
  let e0 := Z.log2 n - Z.log2 d in
  let scaled (k : Z) : Z * Z :=
    if 0 <=? k then (n, d * 2 ^ k) else (n * 2 ^ (- k), d) in
  let k0 := Z.max (e0 - 52) (-1074) in
  let '(n0, d0) := scaled k0 in
  let k := if (n0 / d0 <? 2 ^ 52) && (-1074 <? k0) then k0 - 1 else k0 in
  let '(n1, d1) := scaled k in
  let q := n1 / d1 in
  let r := n1 mod d1 in
  let up := (d1 <? 2 * r) || ((d1 =? 2 * r) && Z.odd q) in
  let q' := if up then q + 1 else q in
  let '(m, e) := if q' =? 2 ^ 53 then (2 ^ 52, k + 1) else (q', k) in
  if 971 <? e then None else Some (m, e).

(* The float nearest to (-1)^neg * n / d, for n >= 0 and d > 0. *)
Definition round_rat (neg : bool) (n d : Z) : option pyfloat :=
  if n =? 0 then Some (fzero neg)
  else '(m, e) ← round_pos n d; Some (FFinite neg m e).

(* float(z) for an int: OverflowError when z is out of range. *)
Definition float_of_int (z : Z) : result pyfloat :=
  match round_rat (z <? 0) (Z.abs z) 1 with
  | Some f => Ok f
  | None => raise ExcOverflowError "int too large to convert to float"
  end.

(* int(f) for a float: truncation towards zero. *)
Definition int_of_float (f : pyfloat) : result Z :=
  match f with
  | FFinite neg m e =>
      let a := if 0 <=? e then m * 2 ^ e else m / 2 ^ (- e) in
      Ok (if neg then - a else a)
  | FInf _ => raise ExcOverflowError "cannot convert float infinity to integer"
  | FNan => raise ExcValueError "cannot convert float NaN to integer"
  end.

(* --------------------------------------------------------------------- *)
(* 4. int() and float() of a string                                      *)
(* --------------------------------------------------------------------- *)

Definition is_digit (c : codepoint) : bool := ((48 <=? c) && (c <=? 57))%N.
Definition digit_val (c : codepoint) : Z := Z.of_N c - 48.

(* Whitespace of the C locale, used once the text is ASCII. *)
Definition c_isspace (c : codepoint) : bool :=
  ((9 <=? c) && (c <=? 13) || (c =? 32))%N.

Section Numbers.
Context `{UnicodeDB}.

(* Both conversions first bring the text to ASCII: code points below 127
   stay, other whitespace becomes a space, other decimal digits become
   '0'..'9', and the first code point that is neither becomes '?' and
   ends the text. *)
Fixpoint to_ascii_decimal (s : pystr) : pystr :=
  match s with
  | [] => []
  | c :: s' =>
      if (c <? 127)%N then c :: to_ascii_decimal s'
      else if isspace c then 32%N :: to_ascii_decimal s'
      else match uc_decimal c with
           | Some d => Z.to_N (48 + d) :: to_ascii_decimal s'
           | None => [63%N]
           end
  end.
End Numbers.

Fixpoint c_lstrip (s : pystr) : pystr :=
  match s with
  | c :: s' => if c_isspace c then c_lstrip s' else s
  | [] => []
  end.

Definition c_strip (s : pystr) : pystr :=
  reverse (c_lstrip (reverse (c_lstrip s))).

(* Underscores may only stand between two digits; they are dropped. *)
Fixpoint drop_underscores (prev : codepoint) (s : pystr) : option pystr :=
  match s with
  | [] => if (prev =? 95)%N then None else Some []
  | c :: s' =>
      if (c =? 95)%N then
        if is_digit prev then drop_underscores c s' else None
      else if (prev =? 95)%N && negb (is_digit c) then None
      else (c ::.) <$> drop_underscores c s'
  end.

(* The longest prefix of digits, and the rest. *)
Fixpoint scan_digits (s : pystr) : pystr * pystr :=
  match s with
  | c :: s' =>
      if is_digit c then let '(ds, r) := scan_digits s' in (c :: ds, r)
      else ([], s)
  | [] => ([], [])
  end.

(* The number written by a digit string. *)
Definition digits_value (ds : pystr) : Z :=
  foldl (λ acc c, 10 * acc + digit_val c) 0 ds.

(* An optional sign: (is it negative, the rest). *)
Definition scan_sign (s : pystr) : bool * pystr :=
  match s with
  | 45%N :: s' => (true, s')
  | 43%N :: s' => (false, s')
  | _ => (false, s)
  end.

Definition ascii_lower_cp (c : codepoint) : codepoint :=
  if ((65 <=? c) && (c <=? 90))%N then (c + 32)%N else c.

(* An int literal in base 10: is it negative, and its digits. *)
Definition int_literal (s : pystr) : option (bool * pystr) :=
  let '(neg, body) := scan_sign (c_strip s) in
  ds ← drop_underscores 0%N body;
  if bool_decide (ds ≠ []) && forallb is_digit ds
  then Some (neg, ds)
  else None.

(* sys.int_info.default_max_str_digits: a str with more digits is not
   converted to an int (the module leaves the limit as it is). *)
Definition max_str_digits : nat := 4300.

(* The int written by a literal, or the ValueError of the limit. *)
Definition int_of_literal (lit : bool * pystr) : result Z :=
  let '(neg, ds) := lit in
  if bool_decide (max_str_digits < length ds)%nat
  then raise ExcValueError "Exceeds the limit (4300 digits) for integer string conversion"
  else Ok (if neg then - digits_value ds else digits_value ds).

(* [eE][+-]?digits up to the end of the text, or nothing at all. *)
Definition parse_exponent (s : pystr) : option Z :=
  match s with
  | [] => Some 0
  | c :: s' =>
      if (ascii_lower_cp c =? 101)%N then
        let '(neg, r) := scan_sign s' in
        let '(ds, r') := scan_digits r in
        if bool_decide (ds ≠ []) && bool_decide (r' = [])
        then Some (if neg then - digits_value ds else digits_value ds)
        else None
      else None
  end.

Definition parse_float_ascii (s : pystr) : option pyfloat :=
  body ← drop_underscores 0%N (c_strip s);
  let '(neg, r) := scan_sign body in
  let low := ascii_lower_cp <$> r in
  if bool_decide (low = str "inf") || bool_decide (low = str "infinity")
  then Some (FInf neg)
  else if bool_decide (low = str "nan") then Some FNan
  else
    let '(ip, r1) := scan_digits r in
    let '(fp, r2) := match r1 with
                     | 46%N :: r1' => scan_digits r1'
                     | _ => ([], r1)
                     end in
    if bool_decide (ip = []) && bool_decide (fp = []) then None
    else
      x ← parse_exponent r2;
      let m := digits_value (ip ++ fp) in
      let e := x - Z.of_nat (length fp) in
      let rounded := if 0 <=? e then round_rat neg (m * 10 ^ e) 1
                     else round_rat neg m (10 ^ (- e)) in
      Some (default (FInf neg) rounded).

Section Conversions.
Context `{UnicodeDB}.

(* int(s) for a str, base 10 *)
Definition int_of_str (s : pystr) : result Z :=
  match int_literal (to_ascii_decimal s) with
  | Some lit => int_of_literal lit
  | None => raise ExcValueError "invalid literal for int() with base 10"
  end.

(* float(s) for a str *)
Definition float_of_str (s : pystr) : result pyfloat :=
  match parse_float_ascii (to_ascii_decimal s) with
  | Some f => Ok f
  | None => raise ExcValueError "could not convert string to float"
  end.
End Conversions.

(* --------------------------------------------------------------------- *)
(* 5. Python values                                                      *)
(* --------------------------------------------------------------------- *)

(* The values that json.loads produces and json.dumps consumes.  A dict
   keeps its items in insertion order, each key once. *)
Inductive pyval :=
  | VNone
  | VBool (b : bool)
  | VInt (z : Z)
  | VFloat (f : pyfloat)
  | VStr (s : pystr)
  | VList (l : list pyval)
  | VDict (d : list (pystr * pyval)).

(* bool(v): the truth value tested by `if v` and `not v`. *)
Definition truthy (v : pyval) : bool :=
  match v with
  | VNone => false
  | VBool b => b
  | VInt z => negb (z =? 0)
  | VFloat (FFinite _ m _) => negb (m =? 0)
  | VFloat _ => true
  | VStr s => bool_decide (s ≠ [])
  | VList l => bool_decide (l ≠ [])
  | VDict d => bool_decide (d ≠ [])
  end.

(* v == 'literal': a value equals a str only if it is that str. *)
Definition eq_str (v : pyval) (lit : pystr) : bool :=
  match v with
  | VStr s => bool_decide (s = lit)
  | _ => false
  end.

(* isinstance(v, (int, float)); bool is a subclass of int. *)
Definition is_int_or_float (v : pyval) : bool :=
  match v with
  | VBool _ | VInt _ | VFloat _ => true
  | _ => false
  end.

(* isinstance(v, str) *)
Definition is_str (v : pyval) : bool :=
  match v with VStr _ => true | _ => false end.

(* type(v).__name__, for messages *)
Definition type_name (v : pyval) : string :=
  match v with
  | VNone => "NoneType"
  | VBool _ => "bool"
  | VInt _ => "int"
  | VFloat _ => "float"
  | VStr _ => "str"
  | VList _ => "list"
  | VDict _ => "dict"
  end.

(* d[k] = v on an insertion-ordered dict *)
Fixpoint dict_set (d : list (pystr * pyval)) (k : pystr) (v : pyval)
    : list (pystr * pyval) :=
  match d with
  | [] => [(k, v)]
  | (k', v') :: d' =>
      if bool_decide (k' = k) then (k', v) :: d'
      else (k', v') :: dict_set d' k v
  end.

Fixpoint dict_lookup (d : list (pystr * pyval)) (k : pystr) : option pyval :=
  match d with
  | [] => None
  | (k', v') :: d' => if bool_decide (k' = k) then Some v' else dict_lookup d' k
  end.

(* data.get(key, dflt): only a dict has the method. *)
Definition py_get (data : pyval) (key : pystr) (dflt : pyval) : result pyval :=
  match data with
  | VDict d => Ok (default dflt (dict_lookup d key))
  | _ => Raise (PyExc ExcAttributeError
                  (str "'" ++ str (type_name data) ++
                   str "' object has no attribute 'get'"))
  end.

(* --------------------------------------------------------------------- *)
(* 6. json.dumps(value, ensure_ascii=False)                              *)
(* --------------------------------------------------------------------- *)

Fixpoint nat_digits (fuel : nat) (z : Z) (acc : pystr) : pystr :=
  match fuel with
  | O => acc
  | S fuel' =>
      let acc' := Z.to_N (48 + z mod 10) :: acc in
      if z <? 10 then acc' else nat_digits fuel' (z / 10) acc'
  end.

(* The decimal digits of z >= 0. *)
Definition dec_digits (z : Z) : pystr :=
  nat_digits (S (Z.to_nat (Z.log2 z))) z [].

(* repr of an int.  (An int of more than 4300 digits, which repr refuses,
   is written out as well: the parser of the request and int() let none
   through.) *)
Definition repr_int (z : Z) : pystr :=
  if z <? 0 then 45%N :: dec_digits (- z) else dec_digits z.

(* floor(log10 (n/d)) for n, d > 0 *)
Definition floor_log10 (n d : Z) : Z :=
  let ge_pow10 (p : Z) : bool :=
    if 0 <=? p then 10 ^ p * d <=? n else d <=? n * 10 ^ (- p) in
  let est := (Z.log2 n - Z.log2 d) * 30103 / 100000 in
  if ge_pow10 (est + 1) then est + 1
  else if ge_pow10 est then est else est - 1.

(* c * 10^p as a float *)
Definition decimal_to_float (c p : Z) : option pyfloat :=
  if 0 <=? p then round_rat false (c * 10 ^ p) 1
  else round_rat false c (10 ^ (- p)).

Fixpoint drop_zeros (s : pystr) : pystr :=
  match s with
  | 48%N :: s' => drop_zeros s'
  | _ => s
  end.

(* The shortest decimal that reads back as the positive float m * 2^e,
   tried with nd, nd + 1, ... significant digits, the nearer of the two
   neighbours first and the even one when they are equally near: its
   digits without trailing zeros and the position of the point after the
   first of them (the value is 0.d1d2... * 10^point). *)
Fixpoint shortest_digits (tries : nat) (nd : Z) (m e : Z) : pystr * Z :=
  let '(n, d) := if 0 <=? e then (m * 2 ^ e, 1) else (m, 2 ^ (- e)) in
  let p := floor_log10 n d - nd + 1 in
  let '(sn, sd) := if 0 <=? p then (n, d * 10 ^ p) else (n * 10 ^ (- p), d) in
  let lo := sn / sd in
  let r := sn mod sd in
  let back (c : Z) : bool :=
    bool_decide (decimal_to_float c p = Some (FFinite false m e)) in
  let down := (2 * r <? sd) || ((2 * r =? sd) && Z.even lo) in
  let near := if down then lo else lo + 1 in
  let far := if down then lo + 1 else lo in
  let finish (c : Z) : pystr * Z :=
    let ds := dec_digits c in
    (reverse (drop_zeros (reverse ds)), p + Z.of_nat (length ds)) in
  if back near then finish near
  else if back far then finish far
  else match tries with
       | O => finish near
       | S tries' => shortest_digits tries' (nd + 1) m e
       end.

Definition pad2 (ds : pystr) : pystr :=
  match ds with [_] => 48%N :: ds | _ => ds end.

(* float.__repr__ of a finite float *)
Definition repr_finite (neg : bool) (m e : Z) : pystr :=
  let sign := if neg then [45%N] else [] in
  if m =? 0 then sign ++ str "0.0"
  else
    let '(ds, point) := shortest_digits 16 1 m e in
    let len := Z.of_nat (length ds) in
    if (point <=? -4) || (16 <? point) then
      let x := point - 1 in
      sign ++ take 1 ds ++
      (if 1 <? len then 46%N :: drop 1 ds else []) ++
      [101%N] ++ (if x <? 0 then [45%N] else [43%N]) ++
      pad2 (dec_digits (Z.abs x))
    else if point <=? 0 then
      sign ++ str "0." ++ replicate (Z.to_nat (- point)) 48%N ++ ds
    else if len <=? point then
      sign ++ ds ++ replicate (Z.to_nat (point - len)) 48%N ++ str ".0"
    else
      sign ++ take (Z.to_nat point) ds ++ [46%N] ++ drop (Z.to_nat point) ds.

(* How json.dumps writes a float (allow_nan is left at True). *)
Definition dumps_float (f : pyfloat) : pystr :=
  match f with
  | FFinite neg m e => repr_finite neg m e
  | FInf false => str "Infinity"
  | FInf true => str "-Infinity"
  | FNan => str "NaN"
  end.

Definition hex_digit (z : Z) : codepoint :=
  Z.to_N (if z <? 10 then 48 + z else 87 + z).

(* One code point inside a JSON string: only the quote, the backslash and
   the control characters are escaped. *)
Definition escape_cp (c : codepoint) : pystr :=
  if (c =? 34)%N then [92; 34]%N
  else if (c =? 92)%N then str "\\"
  else if (c =? 10)%N then str "\n"
  else if (c =? 13)%N then str "\r"
  else if (c =? 9)%N then str "\t"
  else if (c =? 12)%N then str "\f"
  else if (c =? 8)%N then str "\b"
  else if (c <? 32)%N then
    str "\u00" ++ [hex_digit (Z.of_N c / 16); hex_digit (Z.of_N c mod 16)]
  else [c].

Definition dumps_str (s : pystr) : pystr :=
  [34%N] ++ (s ≫= escape_cp) ++ [34%N].

(* ', '.join(parts) *)
Fixpoint join_comma (parts : list pystr) : pystr :=
  match parts with
  | [] => []
  | [x] => x
  | x :: rest => x ++ str ", " ++ join_comma rest
  end.

Fixpoint json_dumps (v : pyval) : pystr :=
  match v with
  | VNone => str "null"
  | VBool true => str "true"
  | VBool false => str "false"
  | VInt z => repr_int z
  | VFloat f => dumps_float f
  | VStr s => dumps_str s
  | VList l => str "[" ++ join_comma (map json_dumps l) ++ str "]"
  | VDict d =>
      str "{" ++
      join_comma (map (λ kv, dumps_str (fst kv) ++ str ": " ++ json_dumps (snd kv)) d)
      ++ str "}"
  end.

(* --------------------------------------------------------------------- *)
(* 7. json.loads(text)                                                   *)
(* --------------------------------------------------------------------- *)

Definition json_ws (c : codepoint) : bool :=
  ((c =? 32) || (c =? 9) || (c =? 10) || (c =? 13))%N.

Fixpoint skip_ws (s : pystr) : pystr :=
  match s with
  | c :: s' => if json_ws c then skip_ws s' else s
  | [] => []
  end.

Definition hex_val (c : codepoint) : option Z :=
  if is_digit c then Some (Z.of_N c - 48)
  else if ((97 <=? c) && (c <=? 102))%N then Some (Z.of_N c - 87)
  else if ((65 <=? c) && (c <=? 70))%N then Some (Z.of_N c - 55)
  else None.

(* The four hex digits of a \uXXXX escape. *)
Definition hex4 (s : pystr) : option (Z * pystr) :=
  match s with
  | a :: b :: c :: d :: r =>
      a ← hex_val a; b ← hex_val b; c ← hex_val c; d ← hex_val d;
      Some (((a * 16 + b) * 16 + c) * 16 + d, r)
  | _ => None
  end.

(* The body of a string literal after its opening quote, up to and with the
   closing quote (strict mode: no raw control characters). *)
Fixpoint scan_string (fuel : nat) (s : pystr) : option (pystr * pystr) :=
  match fuel with
  | O => None
  | S fuel' =>
      let more (c : codepoint) (r : pystr) :=
        '(x, r') ← scan_string fuel' r; Some (c :: x, r') in
      match s with
      | [] => None
      | 34%N :: r => Some ([], r)
      | 92%N :: 117%N :: r =>
          '(u, r1) ← hex4 r;
          if (55296 <=? u) && (u <=? 56319) then
            match r1 with
            | 92%N :: 117%N :: r2 =>
                '(u2, r3) ← hex4 r2;
                if (56320 <=? u2) && (u2 <=? 57343)
                then more (Z.to_N (65536 + (u - 55296) * 1024 + (u2 - 56320))) r3
                else more (Z.to_N u) r1
            | _ => more (Z.to_N u) r1
            end
          else more (Z.to_N u) r1
      | 92%N :: e :: r =>
          if (e =? 34)%N then more 34%N r
          else if (e =? 92)%N then more 92%N r
          else if (e =? 47)%N then more 47%N r
          else if (e =? 98)%N then more 8%N r
          else if (e =? 102)%N then more 12%N r
          else if (e =? 110)%N then more 10%N r
          else if (e =? 114)%N then more 13%N r
          else if (e =? 116)%N then more 9%N r
          else None
      | c :: r => if (c <? 32)%N then None else more c r
      end
  end.

(* What the scanner raises where the text does not go on as JSON.  (Of the
   message only the first words are kept, not the place in the text.) *)
Definition expecting {A} (o : option A) : result A :=
  match o with
  | Some a => Ok a
  | None => raise ExcJSONDecodeError "Expecting value"
  end.

(* A number literal: an optional minus, then 0 or a digit string that does
   not start with 0, then optionally a point with digits, then optionally
   e or E with an optional sign and digits.  The longest such prefix is
   taken; without fraction and exponent it is an int, read as int() reads
   it and so under the limit on the number of digits, otherwise a float. *)
Definition scan_number (s : pystr) : result (pyval * pystr) :=
  let '(neg, r) := match s with 45%N :: r => (true, r) | _ => (false, s) end in
  ipr ← expecting
          match r with
          | 48%N :: r' => Some ([48%N], r')
          | c :: _ => if is_digit c then Some (scan_digits r) else None
          | [] => None
          end;
  let '(ip, r1) := ipr : pystr * pystr in
  let '(fp, r2) :=
    match r1 with
    | 46%N :: c :: _ =>
        if is_digit c then scan_digits (drop 1 r1) else ([], r1)
    | _ => ([], r1)
    end in
  let '(ex, r3) :=
    match r2 with
    | e :: r2' =>
        if (ascii_lower_cp e =? 101)%N then
          let '(sg, r2'') :=
            match r2' with
            | 45%N :: t => ([45%N], t)
            | 43%N :: t => ([43%N], t)
            | _ => ([], r2')
            end in
          let '(ds, t) := scan_digits r2'' in
          if bool_decide (ds = []) then ([], r2) else (e :: sg ++ ds, t)
        else ([], r2)
    | [] => ([], r2)
    end in
  let sign := if neg then [45%N] else [] in
  if bool_decide (fp = []) && bool_decide (ex = []) then
    z ← int_of_literal (neg, ip); Ok (VInt z, r3)
  else
    f ← expecting
          (parse_float_ascii
             (sign ++ ip ++ (if bool_decide (fp = []) then [] else 46%N :: fp) ++ ex));
    Ok (VFloat f, r3).

(* `text` starts with `lit`: what follows the literal. *)
Definition after_literal (lit : string) (s : pystr) : option pystr :=
  if startswith s (str lit) then Some (drop (length (str lit)) s) else None.

(* The scanner calls itself for every array and object inside another, and
   each such call counts against the interpreter's recursion limit.  The
   module leaves the limit at its default of 1000; where load_ticker_mapping
   calls json.loads (the main block, load_ticker_mapping, loads, decode,
   raw_decode and the call of the scanner are on the stack) this leaves 994
   levels of nesting.  `depth` below is what is left of them. *)
Definition json_nesting_limit : nat := 994.

Definition too_deep {A} (what : string) : result A :=
  Raise (PyExc ExcRecursionError
           (str "maximum recursion depth exceeded while decoding a JSON "
            ++ str what ++ str " from a unicode string")).

Fixpoint parse_value (fuel depth : nat) (s : pystr) : result (pyval * pystr) :=
  match fuel with
  | O => expecting None
  | S fuel' =>
      match s with
      | 34%N :: r =>
          '(x, r') ← expecting (scan_string (length s) r); Ok (VStr x, r')
      | 123%N :: r =>
          match depth with
          | O => too_deep "object"
          | S depth' =>
              match skip_ws r with
              | 125%N :: r' => Ok (VDict [], r')
              | r' => parse_members fuel' depth' r' []
              end
          end
      | 91%N :: r =>
          match depth with
          | O => too_deep "array"
          | S depth' =>
              match skip_ws r with
              | 93%N :: r' => Ok (VList [], r')
              | r' => parse_elems fuel' depth' r' []
              end
          end
      | 110%N :: _ => r ← expecting (after_literal "null" s); Ok (VNone, r)
      | 116%N :: _ => r ← expecting (after_literal "true" s); Ok (VBool true, r)
      | 102%N :: _ => r ← expecting (after_literal "false" s); Ok (VBool false, r)
      | 78%N :: _ => r ← expecting (after_literal "NaN" s); Ok (VFloat FNan, r)
      | 73%N :: _ =>
          r ← expecting (after_literal "Infinity" s); Ok (VFloat (FInf false), r)
      | 45%N :: _ =>
          match after_literal "-Infinity" s with
          | Some r => Ok (VFloat (FInf true), r)
          | None => scan_number s
          end
      | _ => scan_number s
      end
  end
with parse_elems (fuel depth : nat) (s : pystr) (acc : list pyval)
    : result (pyval * pystr) :=
  match fuel with
  | O => expecting None
  | S fuel' =>
      '(v, r) ← parse_value fuel' depth s;
      match skip_ws r with
      | 93%N :: r' => Ok (VList (acc ++ [v]), r')
      | 44%N :: r' => parse_elems fuel' depth (skip_ws r') (acc ++ [v])
      | _ => expecting None
      end
  end
with parse_members (fuel depth : nat) (s : pystr) (acc : list (pystr * pyval))
    : result (pyval * pystr) :=
  match fuel with
  | O => expecting None
  | S fuel' =>
      match s with
      | 34%N :: r =>
          '(k, r1) ← expecting (scan_string (length s) r);
          match skip_ws r1 with
          | 58%N :: r2 =>
              '(v, r3) ← parse_value fuel' depth (skip_ws r2);
              match skip_ws r3 with
              | 125%N :: r' => Ok (VDict (dict_set acc k v), r')
              | 44%N :: r' => parse_members fuel' depth (skip_ws r') (dict_set acc k v)
              | _ => expecting None
              end
          | _ => expecting None
          end
      | _ => expecting None
      end
  end.

(* json.loads: one value between optional whitespace, nothing after it. *)
Definition json_loads (text : pystr) : result pyval :=
  '(v, r) ← parse_value (2 * length text + 2) json_nesting_limit (skip_ws text);
  if bool_decide (skip_ws r = []) then Ok v
  else raise ExcJSONDecodeError "Extra data".

(* --------------------------------------------------------------------- *)
(* 8. Conversions of values, and dict.update                             *)
(* --------------------------------------------------------------------- *)

Section ValueOps.
Context `{UnicodeDB}.

(* float(v) *)
Definition py_float (v : pyval) : result pyfloat :=
  match v with
  | VBool b => float_of_int (if b then 1 else 0)
  | VInt z => float_of_int z
  | VFloat f => Ok f
  | VStr s => float_of_str s
  | _ => raise ExcTypeError "float() argument must be a string or a real number"
  end.

(* int(v) *)
Definition py_int (v : pyval) : result Z :=
  match v with
  | VBool b => Ok (if b then 1 else 0)
  | VInt z => Ok z
  | VFloat f => int_of_float f
  | VStr s => int_of_str s
  | _ => raise ExcTypeError
           "int() argument must be a string, a bytes-like object or a real number"
  end.

(* v.upper(): only a str has the method. *)
Definition py_upper (v : pyval) : result pystr :=
  match v with
  | VStr s => Ok (upper s)
  | _ => Raise (PyExc ExcAttributeError
                  (str "'" ++ str (type_name v) ++
                   str "' object has no attribute 'upper'"))
  end.
End ValueOps.

(* The mapping table is a dict from str to whatever a configuration source
   put there. *)
Abbreviation ticker_table := (gmap pystr pyval).

(* One element of the sequence given to dict.update: a key and a value, if
   the element is itself a sequence of length two.  The key is None when it
   is hashable but not a str: such an entry can never be found by a str
   lookup, so it is left out of the str-keyed table. *)
Definition update_item (item : pyval) : result (option pystr * pyval) :=
  let bad_length : result (option pystr * pyval) :=
    raise ExcValueError "dictionary update sequence element has length other than 2" in
  let key_of (k : pyval) (v : pyval) : result (option pystr * pyval) :=
    match k with
    | VStr s => Ok (Some s, v)
    | VList _ | VDict _ => raise ExcTypeError "unhashable type"
    | _ => Ok (None, v)
    end in
  match item with
  | VStr [a; b] => Ok (Some [a], VStr [b])
  | VStr _ => bad_length
  | VList [k; v] => key_of k v
  | VList _ => bad_length
  | VDict [(k1, _); (k2, _)] => Ok (Some k1, VStr k2)
  | VDict _ => bad_length
  | _ => raise ExcTypeError
           "cannot convert dictionary update sequence element to a sequence"
  end.

Fixpoint update_items (tbl : ticker_table) (items : list pyval)
    : result ticker_table :=
  match items with
  | [] => Ok tbl
  | item :: rest =>
      '(k, v) ← update_item item;
      update_items (match k with Some s => <[s := v]> tbl | None => tbl end) rest
  end.

(* tbl.update(other) for a dict tbl and any value other: a dict is merged
   key by key; anything else is read as a sequence of key/value pairs. *)
Definition dict_update (tbl : ticker_table) (other : pyval) : result ticker_table :=
  match other with
  | VDict d => Ok (foldl (λ t kv, <[kv.1 := kv.2]> t) tbl d)
  | VList items => update_items tbl items
  | VStr [] => Ok tbl
  | VStr _ =>
      raise ExcValueError "dictionary update sequence element #0 has length 1; 2 is required"
  | _ => Raise (PyExc ExcTypeError
                  (str "'" ++ str (type_name other) ++ str "' object is not iterable"))
  end.

(* --------------------------------------------------------------------- *)
(* 9. app.py: the ticker mapping                                         *)
(* --------------------------------------------------------------------- *)

(* _default_ticker_mapping = {'GC': 'MGC'} *)
Definition _default_ticker_mapping : ticker_table :=
  {[ str "GC" := VStr (str "MGC") ]}.

(* What load_ticker_mapping finds at _config_file_path: no file, or a file
   whose iteration yields these lines and then, possibly, fails (open() or
   a read raising). *)
Inductive config_file :=
  | NoFile
  | FileLines (lines : list pystr) (failure : option pyexc).

Inductive log_level := INFO | WARNING | ERROR.

#[export] Instance log_level_eq_dec : EqDecision log_level.
Proof. solve_decision. Defined.

(* The records that load_ticker_mapping hands to the logger. *)
Inductive log_event :=
  | LineSkipped (line_num : nat) (line : pystr)   (* 格式错误，已跳过 *)
  | LineWithoutEq (line_num : nat) (line : pystr) (* 格式错误（缺少=），已跳过 *)
  | FileLoaded (file_mapping : ticker_table)
  | FileEmpty
  | FileReadFailed (e : pyexc)
  | FileAbsent
  | EnvLoaded (env_mapping : pyval)
  | EnvParseFailed (e : pyexc)
  | FinalMapping (mapping : ticker_table).

Abbreviation log_record := (log_level * log_event)%type.

Section TickerMapping.
Context `{UnicodeDB}.

(* The body of `for line_num, line in enumerate(f, 1)`. *)
Definition load_line (acc : ticker_table * list log_record)
    (numbered : nat * pystr) : ticker_table * list log_record :=
  let '(file_mapping, log) := acc in
  let '(line_num, line) := numbered in
  let line := strip line in
  if bool_decide (line = []) || startswith line (str "#") then acc
  else if contains 61%N line then
    let parts := split_once 61%N line in
    if bool_decide (length parts = 2%nat) then
      let source := upper (strip (parts !!! 0%nat)) in
      let target := strip (parts !!! 1%nat) in
      if bool_decide (source ≠ []) && bool_decide (target ≠ [])
      then (<[source := VStr target]> file_mapping, log)
      else (file_mapping, log ++ [(WARNING, LineSkipped line_num line)])
    else (file_mapping, log ++ [(WARNING, LineSkipped line_num line)])
  else (file_mapping, log ++ [(WARNING, LineWithoutEq line_num line)]).

Definition enumerate_from_1 (lines : list pystr) : list (nat * pystr) :=
  zip (seq 1 (length lines)) lines.

(* load_ticker_mapping(): the new value of the global _ticker_mapping and
   the log, or the exception that escapes.  `env` is
   os.getenv('TICKER_MAPPING', ''). *)
Definition load_ticker_mapping (file : config_file) (env : pystr)
    : result (ticker_table * list log_record) :=
  let _ticker_mapping := _default_ticker_mapping in
  let '(_ticker_mapping, log) :=
    match file with
    | FileLines lines failure =>
        let '(file_mapping, log) :=
          foldl load_line (∅, []) (enumerate_from_1 lines) in
        match failure with
        | Some e => (_ticker_mapping, log ++ [(ERROR, FileReadFailed e)])
        | None =>
            if bool_decide (file_mapping ≠ ∅)
            then (file_mapping ∪ _ticker_mapping,
                  log ++ [(INFO, FileLoaded file_mapping)])
            else (_ticker_mapping, log ++ [(INFO, FileEmpty)])
        end
    | NoFile => (_ticker_mapping, [(INFO, FileAbsent)])
    end in
  '(_ticker_mapping, log) ←
    (if bool_decide (env ≠ []) then
       try_except
         (env_mapping ← json_loads env;
          updated ← dict_update _ticker_mapping env_mapping;
          Ok (updated, log ++ [(INFO, EnvLoaded env_mapping)]))
         [ExcJSONDecodeError]
         (λ e, Ok (_ticker_mapping, log ++ [(ERROR, EnvParseFailed e)]))
     else Ok (_ticker_mapping, log));
  Ok (_ticker_mapping, log ++ [(INFO, FinalMapping _ticker_mapping)]).

(* map_ticker(ticker), reading the global _ticker_mapping *)
Definition map_ticker (_ticker_mapping : ticker_table) (ticker : pyval)
    : result pyval :=
  if negb (truthy ticker) || eq_str ticker UNKNOWN_TICKER then Ok ticker
  else
    ticker_upper ← py_upper ticker;
    let mapped_ticker := default ticker (_ticker_mapping !! ticker_upper) in
    Ok mapped_ticker.
End TickerMapping.

(* --------------------------------------------------------------------- *)
(* 10. app.py: the client registry and the broadcast                     *)
(* --------------------------------------------------------------------- *)

(* A client handle stands for one websocket connection object. *)
Abbreviation client := nat.

(* One `await client.send(message)` that was attempted, and whether it
   returned or raised. *)
Record send_event := SendEvent {
  sent_to : client;
  sent_message : pystr;
  sent_ok : bool
}.

Section Broadcaster.
(* The network and the peers are outside the module: `send` is what
   `await client.send(message)` does to them, returning or raising. *)
Context {Net : Type}.
Variable send : client → pystr → Net → result unit * Net.

(* The global _ws_clients, the world the sends act on, and the sends
   attempted so far. *)
Record ws_state := WsState {
  _ws_clients : gset client;
  net : Net;
  io_trace : list send_event
}.

(* register_client: the handle enters the set when the connection is
   made ... *)
Definition register_client_connected (websocket : client) (st : ws_state)
    : ws_state :=
  WsState ({[websocket]} ∪ _ws_clients st) (net st) (io_trace st).

(* ... and is discarded when wait_closed() returns or raises. *)
Definition register_client_closed (websocket : client) (st : ws_state)
    : ws_state :=
  WsState (_ws_clients st ∖ {[websocket]}) (net st) (io_trace st).

(* The loop `for client in clients_copy`, threading the set
   `disconnected`, the network and the trace. *)
Fixpoint send_to_each (message : pystr) (clients_copy : list client)
    (disconnected : gset client) (n : Net) (trace : list send_event)
    : result (gset client * Net * list send_event) :=
  match clients_copy with
  | [] => Ok (disconnected, n, trace)
  | client :: rest =>
      let '(outcome, n') := send client message n in
      let trace' := trace ++ [SendEvent client message (is_ok outcome)] in
      disconnected' ←
        try_except_Exception
          (_ ← outcome; Ok disconnected)
          (λ e, Ok ({[client]} ∪ disconnected));
      send_to_each message rest disconnected' n' trace'
  end.

(* broadcast_signal(signal_data), run without another task touching the
   registry in between. *)
Definition broadcast_signal (WS_ENABLED : bool) (signal_data : pyval)
    (st : ws_state) : result ws_state :=
  if negb WS_ENABLED then Ok st
  else
    let message := json_dumps signal_data in
    let disconnected : gset client := ∅ in
    if bool_decide (size (_ws_clients st) = 0%nat) then Ok st
    else
      let clients_copy := elements (_ws_clients st) in
      '(disconnected, n, trace) ←
        send_to_each message clients_copy disconnected (net st) (io_trace st);
      Ok (if bool_decide (disconnected ≠ ∅)
          then WsState (_ws_clients st ∖ disconnected) n trace
          else WsState (_ws_clients st) n trace).
End Broadcaster.

Arguments ws_state Net : clear implicits.
Arguments WsState {Net}.

(* --------------------------------------------------------------------- *)
(* 11. app.py: the broadcast loop and its lazy start                     *)
(* --------------------------------------------------------------------- *)

(* Request threads run broadcast_signal_async side by side with each other
   and with the threads that _init_broadcast_loop starts.  Each step below
   is one read or write of the globals _broadcast_loop and
   _broadcast_loop_thread; the interpreter can switch threads between any
   two of them. *)
Module Dispatch.

(* How a call of broadcast_signal_async ended. *)
Inductive outcome :=
  | Skipped                  (* WS_ENABLED is false *)
  | Submitted (loop : nat)   (* run_coroutine_threadsafe on this loop *)
  | RanInline                (* the temporary loop of the else branch *)
  | Failed.                  (* an exception, caught and logged at line 245 *)

(* Where a request thread stands. *)
Inductive handler_pc :=
  | AtEnabledCheck     (* 228: if not WS_ENABLED *)
  | AtLoopCheck        (* 233: if _broadcast_loop is None *)
  | AtThreadCheck      (* 214: if _broadcast_loop_thread is None or not alive *)
  | AtThreadCreate     (* 215: _broadcast_loop_thread = threading.Thread(...) *)
  | AtThreadStart      (* 216: _broadcast_loop_thread.start() *)
  | AtSleep            (* 219: time.sleep(0.1) *)
  | AtSubmit           (* 237: if the loop is there and running *)
  | Finished (o : outcome).

(* A thread object made at line 215 and the progress of its run_loop. *)
Inductive thread_state :=
  | Created            (* constructed, start() not yet called *)
  | Started            (* started, run_loop before line 210 *)
  | LoopAssigned       (* _broadcast_loop assigned, before run_forever *)
  | Running.           (* inside run_forever *)

(* Threads and event loops are named by their position in `threads`; an
   event loop bears the name of the thread that made it. *)
Record world := World {
  _broadcast_loop : option nat;
  _broadcast_loop_thread : option nat;
  threads : list thread_state;
  handlers : list handler_pc
}.

Inductive actor :=
  | Handler (i : nat)
  | LoopThread (t : nat).

(* thread.is_alive() *)
Definition is_alive (w : world) (t : nat) : bool :=
  match threads w !! t with
  | Some Created | None => false
  | Some _ => true
  end.

(* loop.is_running() *)
Definition is_running (w : world) (l : nat) : bool :=
  match threads w !! l with
  | Some Running => true
  | _ => false
  end.

Definition set_handler (i : nat) (pc : handler_pc) (w : world) : world :=
  World (_broadcast_loop w) (_broadcast_loop_thread w) (threads w)
        (<[i := pc]> (handlers w)).

Definition step_handler (WS_ENABLED : bool) (i : nat) (w : world) : world :=
  match handlers w !! i with
  | Some AtEnabledCheck =>
      set_handler i (if WS_ENABLED then AtLoopCheck else Finished Skipped) w
  | Some AtLoopCheck =>
      set_handler i (match _broadcast_loop w with
                     | None => AtThreadCheck
                     | Some _ => AtSubmit
                     end) w
  | Some AtThreadCheck =>
      set_handler i (match _broadcast_loop_thread w with
                     | None => AtThreadCreate
                     | Some t => if is_alive w t then AtSubmit else AtThreadCreate
                     end) w
  | Some AtThreadCreate =>
      set_handler i AtThreadStart
        (World (_broadcast_loop w) (Some (length (threads w)))
               (threads w ++ [Created]) (handlers w))
  | Some AtThreadStart =>
      match _broadcast_loop_thread w with
      | Some t =>
          match threads w !! t with
          | Some Created =>
              set_handler i AtSleep
                (World (_broadcast_loop w) (_broadcast_loop_thread w)
                       (<[t := Started]> (threads w)) (handlers w))
          | _ => set_handler i (Finished Failed) w  (* started twice *)
          end
      | None => set_handler i (Finished Failed) w
      end
  | Some AtSleep => set_handler i AtSubmit w
  | Some AtSubmit =>
      set_handler i (match _broadcast_loop w with
                     | Some l => if is_running w l then Finished (Submitted l)
                                 else Finished RanInline
                     | None => Finished RanInline
                     end) w
  | Some (Finished _) | None => w
  end.

(* run_loop in a started thread: line 210, then run_forever. *)
Definition step_thread (t : nat) (w : world) : world :=
  match threads w !! t with
  | Some Started =>
      World (Some t) (_broadcast_loop_thread w)
            (<[t := LoopAssigned]> (threads w)) (handlers w)
  | Some LoopAssigned =>
      World (_broadcast_loop w) (_broadcast_loop_thread w)
            (<[t := Running]> (threads w)) (handlers w)
  | _ => w
  end.

Definition step (WS_ENABLED : bool) (w : world) (a : actor) : world :=
  match a with
  | Handler i => step_handler WS_ENABLED i w
  | LoopThread t => step_thread t w
  end.

(* The threads take steps in the order of the schedule. *)
Definition run (WS_ENABLED : bool) (schedule : list actor) (w : world) : world :=
  foldl (step WS_ENABLED) w schedule.

(* Nothing started yet, and so many requests entering
   broadcast_signal_async. *)
Definition initial (requests : nat) : world :=
  World None None [] (replicate requests AtEnabledCheck).

Definition was_started (s : thread_state) : bool :=
  match s with Created => false | _ => true end.

(* The event-loop threads that were started. *)
Definition started_threads (w : world) : nat :=
  length (filter (λ s, was_started s = true) (threads w)).

Definition in_run_forever (s : thread_state) : bool :=
  match s with Running => true | _ => false end.

(* The event loops inside run_forever. *)
Definition running_loops (w : world) : nat :=
  length (filter (λ s, in_run_forever s = true) (threads w)).

(* Two requests arrive before any loop exists.  The first passes the test
   of line 214 and is suspended before line 215; the second passes the same
   test, for _broadcast_loop_thread is still None; then both create and
   start a thread, the threads run, and both requests submit. *)
Definition racing_schedule : list actor :=
  [Handler 0; Handler 0; Handler 0;
   Handler 1; Handler 1; Handler 1;
   Handler 0; Handler 0;
   Handler 1; Handler 1;
   LoopThread 0; LoopThread 0; LoopThread 1; LoopThread 1;
   Handler 0; Handler 0; Handler 1; Handler 1].

(* The program points before line 215. *)
Definition before_create (pc : handler_pc) : bool :=
  match pc with
  | AtEnabledCheck | AtLoopCheck | AtThreadCheck | AtThreadCreate => true
  | _ => false
  end.

(* What holds of every world that a single request can reach. *)
Definition lone_request_inv (w : world) : Prop :=
  ∃ pc, handlers w = [pc] ∧
        (length (threads w) ≤ 1)%nat ∧
        (before_create pc = true → threads w = []).

End Dispatch.

(* --------------------------------------------------------------------- *)
(* 12. app.py: the webhook handler                                       *)
(* --------------------------------------------------------------------- *)

(* What the route returns: jsonify(body), status. *)
Record response := Response { status : Z; body : pyval }.

Definition success_body : pyval :=
  VDict [(str "status", VStr (str "success"));
         (str "message", VStr (str "Signal received"))].

Definition error_body (e : pyexc) : pyval :=
  VDict [(str "status", VStr (str "error")); (str "message", VStr (exc_msg e))].

(* The dict signal_data of lines 335-340. *)
Definition make_signal (mapped_ticker action price_value interval_value : pyval)
    : pyval :=
  VDict [(str "Ticker", mapped_ticker); (str "Action", action);
         (str "Price", price_value); (str "Interval", interval_value)].

Section Webhook.
Context `{UnicodeDB}.

(* Lines 311-319: price_value from price. *)
Definition price_value (price : pyval) : result pyval :=
  if truthy price && negb (eq_str price UNKNOWN_PRICE) then
    try_except
      (if is_int_or_float price then f ← py_float price; Ok (VFloat f)
       else if is_str price then f ← py_float price; Ok (VFloat f)
       else Ok VNone)
      [ExcValueError; ExcTypeError]
      (λ _, Ok VNone)
  else Ok VNone.

(* Lines 322-330: interval_value from interval. *)
Definition interval_value (interval : pyval) : result pyval :=
  if truthy interval then
    try_except
      (if is_int_or_float interval then z ← py_int interval; Ok (VInt z)
       else if is_str interval then z ← py_int interval; Ok (VInt z)
       else Ok VNone)
      [ExcValueError; ExcTypeError]
      (λ _, Ok VNone)
  else Ok VNone.

(* The body of the try block up to the construction of signal_data.
   `request_json` is what evaluating request.json gives: the parsed body,
   or the exception Flask raises for a body it cannot take. *)
Definition build_signal (_ticker_mapping : ticker_table)
    (request_json : result pyval) : result pyval :=
  data ← request_json;
  ticker ← py_get data (str "ticker") (VStr UNKNOWN_TICKER);
  action ← py_get data (str "action") (VStr NO_ACTION);
  price ← py_get data (str "price") (VStr UNKNOWN_PRICE);
  interval ← py_get data (str "interval") VNone;
  price_value ← price_value price;
  interval_value ← interval_value interval;
  mapped_ticker ← map_ticker _ticker_mapping ticker;
  Ok (make_signal mapped_ticker action price_value interval_value).

(* webhook_listener(): the response, and the signal_data handed to
   broadcast_signal_async if there was such a call.  Nothing after the
   construction of signal_data can raise: broadcast_signal_async catches
   what it meets, the rest is logging. *)
Definition webhook_listener (WS_ENABLED : bool)
    (_ticker_mapping : ticker_table) (request_json : result pyval)
    : response * option pyval :=
  match build_signal _ticker_mapping request_json with
  | Ok signal_data =>
      (Response 200 success_body,
       if WS_ENABLED then Some signal_data else None)
  | Raise e => (Response 400 (error_body e), None)
  end.
End Webhook.

(* --------------------------------------------------------------------- *)
(* 13. Test data                                                         *)
(* --------------------------------------------------------------------- *)

(* A Unicode database that is silent outside ASCII, for running examples
   whose text is ASCII. *)
Definition ascii_db : UnicodeDB :=
  {| uc_toupper := λ c, [c]; uc_decimal := λ _, None |}.

(* JSON text written with ' in the place of the double quote. *)
Definition jstr (s : string) : pystr :=
  (λ c, if (c =? 39)%N then 34%N else c) <$> str s.
Arguments jstr _%_string.

(* --------------------------------------------------------------------- *)
(* 14. The mapping file, as specified                                    *)
(* --------------------------------------------------------------------- *)

(* The mapping file as the specification describes it: lines of the form
   SOURCE=TARGET, blank lines and lines starting with # skipped, the source
   side uppercased, whitespace trimmed on both sides, and a line without =,
   with an empty source or with an empty target skipped with a warning. *)

(* The text before the first '=' and the text after it. *)
Fixpoint before_eq (s : pystr) : pystr :=
  match s with
  | [] => []
  | c :: s' => if (c =? 61)%N then [] else c :: before_eq s'
  end.

Fixpoint after_eq (s : pystr) : pystr :=
  match s with
  | [] => []
  | c :: s' => if (c =? 61)%N then s' else after_eq s'
  end.

Definition blank_or_comment (line : pystr) : bool :=
  bool_decide (strip line = []) || startswith (strip line) (str "#").

Section FileFormat.
Context `{UnicodeDB}.

(* The entry a line stands for, if it is well formed. *)
Definition line_entry (line : pystr) : option (pystr * pyval) :=
  let source := upper (strip (before_eq (strip line))) in
  let target := strip (after_eq (strip line)) in
  if blank_or_comment line then None
  else if bool_decide (61%N ∉ strip line) then None
  else if bool_decide (source = []) || bool_decide (target = []) then None
  else Some (source, VStr target).

(* The warning a line earns, if it is malformed (blank lines and comments
   are skipped without one). *)
Definition line_warning (numbered : nat * pystr) : option log_record :=
  let '(line_num, line) := numbered in
  if blank_or_comment line then None
  else if bool_decide (61%N ∉ strip line)
  then Some (WARNING, LineWithoutEq line_num (strip line))
  else match line_entry line with
       | Some _ => None
       | None => Some (WARNING, LineSkipped line_num (strip line))
       end.

(* The entries of a file, a later line overriding an earlier one. *)
Definition file_entries (lines : list pystr) : ticker_table :=
  list_to_map (reverse (omap line_entry lines)).

(* The layer a configuration file contributes. *)
Definition file_layer (file : config_file) : ticker_table :=
  match file with
  | FileLines lines None => file_entries lines
  | _ => ∅
  end.

(* One step of putting entries into a table. *)
Definition insert_entry (tbl : ticker_table) (kv : pystr * pyval) : ticker_table :=
  <[kv.1 := kv.2]> tbl.

(* What the file phase of load_ticker_mapping logs. *)
Definition file_phase_log (file : config_file) : list log_record :=
  match file with
  | NoFile => [(INFO, FileAbsent)]
  | FileLines lines (Some e) =>
      omap line_warning (enumerate_from_1 lines) ++ [(ERROR, FileReadFailed e)]
  | FileLines lines None =>
      omap line_warning (enumerate_from_1 lines) ++
      [if bool_decide (file_entries lines ≠ ∅)
       then (INFO, FileLoaded (file_entries lines))
       else (INFO, FileEmpty)]
  end.

End FileFormat.

(* The line of the file that a log record is about, if it is about one. *)
Definition record_line (r : log_record) : option nat :=
  match r.2 with
  | LineSkipped line_num _ | LineWithoutEq line_num _ => Some line_num
  | _ => None
  end.

(* A file with a line without '=', a comment, a blank line, a line without
   source and a line without target next to two good lines, and an
   environment value that is not JSON. *)
Definition sample_lines : list pystr :=
  [str "garbage_no_equals"; str "# comment"; str ""; str " cl = MCL ";
   str "=x"; str "y="; str "es=MES"].

(* --------------------------------------------------------------------- *)
(* 15. A broadcast, as specified                                         *)
(* --------------------------------------------------------------------- *)

(* The handles whose send failed. *)
Definition failed_clients (evs : list send_event) : gset client :=
  list_to_set (sent_to <$> filter (λ ev, sent_ok ev = false) evs).

Section BroadcastSpec.
Context {Net : Type}.
Variable send : client → pystr → Net → result unit * Net.

(* The sends of one broadcast: the message is sent to the handles one after
   the other, whatever the outcome of the sends before, each send acting on
   the network as the one before left it; an event records each. *)
Inductive sends_run (message : pystr)
    : list client → Net → list send_event → Net → Prop :=
  | sends_done (n : Net) : sends_run message [] n [] n
  | sends_next (c : client) (rest : list client) (n n1 n' : Net)
        (outcome : result unit) (evs : list send_event) :
      send c message n = (outcome, n1) →
      sends_run message rest n1 evs n' →
      sends_run message (c :: rest) n
        (SendEvent c message (is_ok outcome) :: evs) n'.
End BroadcastSpec.

(* A network for examples: every client has an inbox, and the connections
   of the clients in `down` are broken, so that a send to them raises. *)
Definition flaky_send (down : gset client) (c : client) (message : pystr)
    (inboxes : gmap client (list pystr))
    : result unit * gmap client (list pystr) :=
  if bool_decide (c ∈ down)
  then (Raise (PyExc (ExcOther "ConnectionClosed") (str "no close frame received or sent")),
        inboxes)
  else (Ok (), <[c := default [] (inboxes !! c) ++ [message]]> inboxes).

(* Three registered clients, nothing sent yet. *)
Definition three_clients : ws_state (gmap client (list pystr)) :=
  WsState {[1%nat; 2%nat; 3%nat]} ∅ [].

Definition sample_signal : pyval :=
  make_signal (VStr (str "MGC")) (VStr (str "buy"))
              (VFloat (FFinite false 8578389719908352 (-42))) (VInt 10).

(* --------------------------------------------------------------------- *)
(* 16. Requests, as specified                                            *)
(* --------------------------------------------------------------------- *)

(* A field of the request object, or the default of the handler. *)
Definition field (d : list (pystr * pyval)) (name : string) (dflt : pyval)
    : pyval :=
  default dflt (dict_lookup d (str name)).

(* A field of the outbound payload. *)
Definition signal_field (signal_data : pyval) (name : string) : option pyval :=
  match signal_data with
  | VDict d => dict_lookup d (str name)
  | _ => None
  end.

(* The number zero: the int 0, or the float 0.0 of either sign. *)
Definition is_zero_number (v : pyval) : bool :=
  match v with
  | VInt z => z =? 0
  | VFloat (FFinite _ m _) => m =? 0
  | _ => false
  end.

Section RequestFields.
Context `{UnicodeDB}.

(* A price that is missing or cannot be read as a number: no field, null, a
   str that float() does not accept, a list, an object, or false. *)
Definition unreadable_price (f : option pyval) : bool :=
  match f with
  | None | Some VNone | Some (VList _) | Some (VDict _) | Some (VBool false) => true
  | Some (VStr s) => negb (is_ok (float_of_str s))
  | _ => false
  end.

(* The same for the interval, with int(). *)
Definition unreadable_interval (f : option pyval) : bool :=
  match f with
  | None | Some VNone | Some (VList _) | Some (VDict _) | Some (VBool false) => true
  | Some (VStr s) => negb (is_ok (int_of_str s))
  | _ => false
  end.
End RequestFields.

(* The request of the end-to-end example, and two with a field that is not
   a number. *)
Definition request_gc : pystr :=
  jstr "{'ticker':'GC','action':'buy','price':'1950.5','interval':'10'}".
Definition request_abc : pystr :=
  jstr "{'ticker':'ES','action':'sell','price':'abc'}".
Definition request_true : pystr :=
  jstr "{'ticker':'ES','action':'sell','price':true,'interval':true}".
Definition request_zero_str : pystr :=
  jstr "{'ticker':'ES','action':'buy','price':'0','interval':0}".
Definition request_zero : pystr :=
  jstr "{'ticker':'ES','action':'buy','price':0,'interval':0.0}".

(* 1950.5, 1.0 and 0.0 as floats *)
Definition f_1950_5 : pyfloat := FFinite false 8578389719908352 (-42).
Definition f_1 : pyfloat := FFinite false 4503599627370496 (-52).

(* --------------------------------------------------------------------- *)
(* 16a. Requests that the handler turns down                             *)
(* --------------------------------------------------------------------- *)

(* A ticker that map_ticker cannot take: truthy and not a str. *)
Definition unmappable_ticker (v : pyval) : bool :=
  truthy v && negb (is_str v).

(* A price that float() cannot hold: an int out of the range of floats. *)
Definition overflowing_price (v : pyval) : bool :=
  match v with
  | VInt z => negb (is_ok (float_of_int z))
  | _ => false
  end.

(* An interval that int() cannot take without OverflowError: an infinite
   float. *)
Definition infinite_interval (v : pyval) : bool :=
  match v with
  | VFloat (FInf _) => true
  | _ => false
  end.

Definition rejected_fields (d : list (pystr * pyval)) : bool :=
  overflowing_price (field d "price" (VStr UNKNOWN_PRICE)) ||
  infinite_interval (field d "interval" VNone) ||
  unmappable_ticker (field d "ticker" (VStr UNKNOWN_TICKER)).

(* Requests for the examples: an interval too large for a float, a ticker
   that is a number. *)
Definition request_huge_interval : pystr :=
  jstr "{'ticker':'ES','action':'buy','price':1,'interval':1e999}".
Definition request_number_ticker : pystr :=
  jstr "{'ticker':5,'action':'buy'}".

(* --------------------------------------------------------------------- *)
(* 16b. What a run of the loader leaves, without the log                 *)
(* --------------------------------------------------------------------- *)

Definition loaded_table (r : result (ticker_table * list log_record))
    : result ticker_table :=
  match r with
  | Ok (tbl, _) => Ok tbl
  | Raise e => Raise e
  end.

(* An exception for a file that cannot be read to its end. *)
Definition read_error : pyexc :=
  PyExc (ExcOther "UnicodeDecodeError") (str "invalid start byte").

(* A str that starts with no whitespace (or is empty). *)
Definition starts_clean (s : pystr) : Prop :=
  match s with
  | [] => True
  | c :: _ => isspace c = false
  end.

(* --------------------------------------------------------------------- *)
(* 16c. app.py: start_websocket_server, and the loop after startup       *)
(* --------------------------------------------------------------------- *)

(* The global _ws_server_started, the server threads started so far, and
   the servers that are accepting connections. *)
Record server_state := ServerState {
  _ws_server_started : bool;
  server_threads : nat;
  serving : nat
}.

(* What start_websocket_server logs. *)
Inductive server_log :=
  | AlreadyStarted      (* warning: 已经启动，跳过重复启动 *)
  | ServerDisabled      (* info: WebSocket功能已禁用 *)
  | ThreadStarted.      (* info: WebSocket服务器线程已启动 *)

(* start_websocket_server().  `port_free` tells whether websockets.serve
   can bind the port in the thread that is started: if it cannot, server()
   logs the OSError and the thread ends. *)
Definition start_websocket_server (WS_ENABLED : bool) (port_free : bool)
    (st : server_state) : server_state * server_log :=
  if _ws_server_started st then (st, AlreadyStarted)
  else if negb WS_ENABLED then (st, ServerDisabled)
  else (ServerState true (S (server_threads st))
          (if port_free then S (serving st) else serving st),
        ThreadStarted).

(* The state when the module is loaded. *)
Definition server_initial : server_state := ServerState false 0 0.

(* Calls one after the other, each with the state of the port at its time. *)
Definition start_repeatedly (WS_ENABLED : bool) (ports : list bool)
    (st : server_state) : server_state :=
  foldl (λ st port_free, (start_websocket_server WS_ENABLED port_free st).1)
        st ports.

(* The world that the call of _init_broadcast_loop() in the main block
   leaves to the requests: one thread, started, as far on its way as `s`
   says, and _broadcast_loop assigned if the thread has got to it. *)
Definition after_startup (s : Dispatch.thread_state) (requests : nat)
    : Dispatch.world :=
  Dispatch.World
    (match s with
     | Dispatch.LoopAssigned | Dispatch.Running => Some 0%nat
     | _ => None
     end)
    (Some 0%nat) [s] (replicate requests Dispatch.AtEnabledCheck).

(* Where a request can stand, or how it can have ended, when the loop
   thread was started before it came. *)
Definition served_pc (pc : Dispatch.handler_pc) : Prop :=
  match pc with
  | Dispatch.AtEnabledCheck | Dispatch.AtLoopCheck | Dispatch.AtThreadCheck
  | Dispatch.AtSubmit
  | Dispatch.Finished (Dispatch.Submitted 0)
  | Dispatch.Finished Dispatch.RanInline => True
  | _ => False
  end.

(* What holds of every world that the requests can reach after startup. *)
Definition served_inv (w : Dispatch.world) : Prop :=
  (∃ s, Dispatch.threads w = [s] ∧ Dispatch.was_started s = true) ∧
  Dispatch._broadcast_loop_thread w = Some 0%nat ∧
  (Dispatch._broadcast_loop w = None ∨ Dispatch._broadcast_loop w = Some 0%nat) ∧
  Forall served_pc (Dispatch.handlers w).

(* The same when broadcasting is disabled. *)
Definition skipped_pc (pc : Dispatch.handler_pc) : Prop :=
  match pc with
  | Dispatch.AtEnabledCheck | Dispatch.Finished Dispatch.Skipped => True
  | _ => False
  end.

(* ===================================================================== *)
(* Properties                                                            *)
(* ===================================================================== *)

(* --------------------------------------------------------------------- *)
(* 17. map_ticker                                                        *)
(* --------------------------------------------------------------------- *)

Section MapTickerProperties.
Context `{UnicodeDB}.

Lemma truthy_str (s : pystr) : truthy (VStr s) = bool_decide (s ≠ []).
Proof. reflexivity. Qed.

Lemma map_ticker_str (tbl : ticker_table) (s : pystr) :
  s ≠ [] → s ≠ UNKNOWN_TICKER →
  map_ticker tbl (VStr s) = Ok (default (VStr s) (tbl !! upper s)).
Proof.
  intros Hne Hunk. unfold map_ticker. cbn.
  rewrite (bool_decide_eq_true_2 _ Hne), (bool_decide_eq_false_2 _ Hunk).
  reflexivity.
Qed.

Lemma map_ticker_unchanged (tbl : ticker_table) (s : pystr) :
  s = [] ∨ s = UNKNOWN_TICKER → map_ticker tbl (VStr s) = Ok (VStr s).
Proof.
  intros [-> | ->]; reflexivity.
Qed.

(** C4. For every str ticker, map_ticker returns it unchanged when it is
    empty or the sentinel '未知品种'; otherwise it looks the uppercased
    ticker up in the table and returns the value found, or the ticker as
    it was given (not uppercased) when there is none.  The result is
    always a value, never an exception. *)
Theorem map_ticker_spec (tbl : ticker_table) (ticker : pystr) :
  map_ticker tbl (VStr ticker) =
    Ok (if bool_decide (ticker = [] ∨ ticker = UNKNOWN_TICKER)
        then VStr ticker
        else match tbl !! upper ticker with
             | Some mapped => mapped
             | None => VStr ticker
             end).
Proof.
  case_bool_decide as Hs.
  - by apply map_ticker_unchanged.
  - rewrite map_ticker_str by tauto.
    by destruct (tbl !! upper ticker).
Qed.

(* Re-application changes nothing exactly when the mapped str is empty or
   the sentinel, or its uppercase is not a key, or is a key mapped to that
   very str. *)
Lemma map_ticker_idempotent_iff (tbl : ticker_table) (mapped : pystr) :
  map_ticker tbl (VStr mapped) = Ok (VStr mapped) ↔
  mapped = [] ∨ mapped = UNKNOWN_TICKER ∨
  tbl !! upper mapped = None ∨ tbl !! upper mapped = Some (VStr mapped).
Proof.
  destruct (decide (mapped = [] ∨ mapped = UNKNOWN_TICKER)) as [Hs | Hs].
  - rewrite map_ticker_unchanged by done. split; [intros _; tauto | done].
  - rewrite map_ticker_str by tauto.
    destruct (tbl !! upper mapped) as [v|] eqn:Hv; cbn.
    + split.
      * intros [= ->]. auto.
      * intros [? | [? | [? | [= ->]]]]; (tauto || done).
    + split; auto.
Qed.

(** C9 (amended). If map_ticker gives a str whose uppercase is not a key of
    the table, mapping that result again gives the same result.  The
    condition is sufficient and not necessary: for a str result m of
    map_ticker, mapping m again gives m exactly when m is empty, or the
    sentinel '未知品种', or the uppercase of m is not a key, or it is a key
    mapped to m itself.  Mappings are not chained: with A -> B and B -> C,
    "A" is mapped to "B", and "B" to "C".  Under the built-in table,
    map("gc") = "MGC", map("GC") = "MGC", map("XX") = "XX" and
    map("") = "". *)
Theorem map_ticker_idempotent :
  (∀ (tbl : ticker_table) (t : pyval) (mapped : pystr),
     map_ticker tbl t = Ok (VStr mapped) →
     tbl !! upper mapped = None →
     map_ticker tbl (VStr mapped) = map_ticker tbl t) ∧
  (∀ (tbl : ticker_table) (t : pyval) (mapped : pystr),
     map_ticker tbl t = Ok (VStr mapped) →
     (map_ticker tbl (VStr mapped) = map_ticker tbl t ↔
      mapped = [] ∨ mapped = UNKNOWN_TICKER ∨
      tbl !! upper mapped = None ∨ tbl !! upper mapped = Some (VStr mapped))) ∧
  (∃ (tbl : ticker_table) (t mapped : pystr),
     map_ticker tbl (VStr t) = Ok (VStr mapped) ∧
     is_Some (tbl !! upper mapped) ∧
     map_ticker tbl (VStr mapped) ≠ map_ticker tbl (VStr t)) ∧
  map_ticker _default_ticker_mapping (VStr (str "gc")) = Ok (VStr (str "MGC")) ∧
  map_ticker _default_ticker_mapping (VStr (str "GC")) = Ok (VStr (str "MGC")) ∧
  map_ticker _default_ticker_mapping (VStr (str "XX")) = Ok (VStr (str "XX")) ∧
  map_ticker _default_ticker_mapping (VStr (str "")) = Ok (VStr (str "")).
Proof.
  split; [| split; [| split; [| by repeat split]]].
  - intros tbl t mapped Hmap Hkey. rewrite Hmap.
    apply map_ticker_idempotent_iff. auto.
  - intros tbl t mapped Hmap. rewrite Hmap.
    apply map_ticker_idempotent_iff.
  - exists {[ str "A" := VStr (str "B"); str "B" := VStr (str "C") ]},
      (str "A"), (str "B").
    split; [done |]. split; [by eexists |]. by intros [=].
Qed.

(* Mappings are not chained: with A -> B and B -> C in the table, "A" is
   mapped to "B", and "B" to "C". *)
Lemma map_ticker_no_chaining :
  let tbl : ticker_table :=
    {[ str "A" := VStr (str "B"); str "B" := VStr (str "C") ]} in
  map_ticker tbl (VStr (str "A")) = Ok (VStr (str "B")) ∧
  map_ticker tbl (VStr (str "B")) = Ok (VStr (str "C")).
Proof. by split. Qed.

End MapTickerProperties.

Lemma map_ticker_idempotent_witness :
  map_ticker (H := ascii_db) _default_ticker_mapping (VStr (str "gc"))
    = Ok (VStr (str "MGC")) ∧
  _default_ticker_mapping !! upper (H := ascii_db) (str "MGC") = None ∧
  map_ticker (H := ascii_db) _default_ticker_mapping (VStr (str "MGC"))
    = map_ticker (H := ascii_db) _default_ticker_mapping (VStr (str "gc")).
Proof.
  split; [reflexivity |]. split; [reflexivity |].
  apply (proj1 (@map_ticker_idempotent ascii_db)
           _default_ticker_mapping (VStr (str "gc")) (str "MGC")).
  - reflexivity.
  - reflexivity.
Defined.

(* The claim C9 as it stands fails in its `exactly when`: with GC -> MGC
   and MGC -> MGC the mapped value is a key of the table, and mapping it
   again still changes nothing. *)
Lemma self_mapped_key_is_idempotent :
  let tbl : ticker_table :=
    {[ str "GC" := VStr (str "MGC"); str "MGC" := VStr (str "MGC") ]} in
  map_ticker (H := ascii_db) tbl (VStr (str "GC")) = Ok (VStr (str "MGC")) ∧
  is_Some (tbl !! upper (H := ascii_db) (str "MGC")) ∧
  map_ticker (H := ascii_db) tbl (VStr (str "MGC"))
    = map_ticker (H := ascii_db) tbl (VStr (str "GC")).
Proof.
  split; [reflexivity |]. split; [by eexists | reflexivity].
Qed.

(* --------------------------------------------------------------------- *)
(* 18. load_ticker_mapping                                               *)
(* --------------------------------------------------------------------- *)


Section LoaderProperties.
Context `{UnicodeDB}.

Lemma split_once_eq (s : pystr) :
  split_once 61%N s =
    if bool_decide (61%N ∈ s) then [before_eq s; after_eq s] else [s].
Proof.
  induction s as [| c s IH]; [done |].
  cbn [split_once before_eq after_eq].
  destruct (N.eqb_spec c 61) as [-> | Hc].
  - rewrite bool_decide_eq_true_2 by left. done.
  - rewrite IH. case_bool_decide as Hin.
    + rewrite bool_decide_eq_true_2 by (by right). done.
    + rewrite bool_decide_eq_false_2; [done |].
      intros [? | ?]%elem_of_cons; congruence.
Qed.

(* One turn of the loop, read against the file format. *)
Lemma load_line_spec (file_mapping : ticker_table) (log : list log_record)
    (line_num : nat) (line : pystr) :
  load_line (file_mapping, log) (line_num, line) =
    (match line_entry line with
     | Some (source, target) => <[source := target]> file_mapping
     | None => file_mapping
     end,
     log ++ option_list (line_warning (line_num, line))).
Proof.
  unfold load_line, line_entry, line_warning, line_entry, blank_or_comment, contains.
  destruct (bool_decide (strip line = []) || startswith (strip line) (str "#"));
    [by rewrite app_nil_r |].
  rewrite split_once_eq.
  destruct (decide (61%N ∈ strip line)) as [Hin | Hin].
  - rewrite !(bool_decide_eq_true_2 (61%N ∈ strip line)) by done.
    rewrite (bool_decide_eq_false_2 (61%N ∉ strip line)) by tauto.
    rewrite (bool_decide_eq_true_2 (length _ = 2%nat)) by done.
    change ([before_eq (strip line); after_eq (strip line)] !!! 0%nat)
      with (before_eq (strip line)).
    change ([before_eq (strip line); after_eq (strip line)] !!! 1%nat)
      with (after_eq (strip line)).
    repeat case_bool_decide; cbn; rewrite ?app_nil_r; done.
  - rewrite !(bool_decide_eq_false_2 (61%N ∈ strip line)) by done.
    rewrite (bool_decide_eq_true_2 (61%N ∉ strip line)) by done. done.
Qed.


Lemma filter_Forall {A} (P : A → Prop) `{!∀ x, Decision (P x)} (l : list A) :
  Forall P l → filter P l = l.
Proof.
  induction 1 as [| x l Hx _ IH]; [done |].
  by rewrite filter_cons_True, IH.
Qed.

Lemma omap_cons_option_list {A B} (f : A → option B) (x : A) (l : list A) :
  omap f (x :: l) = option_list (f x) ++ omap f l.
Proof. cbn. by destruct (f x). Qed.

Lemma load_lines_spec (lines : list pystr) (start : nat)
    (file_mapping : ticker_table) (log : list log_record) :
  foldl load_line (file_mapping, log) (zip (seq start (length lines)) lines) =
    (foldl insert_entry file_mapping (omap line_entry lines),
     log ++ omap line_warning (zip (seq start (length lines)) lines)).
Proof.
  revert start file_mapping log.
  induction lines as [| line lines IH]; intros start file_mapping log.
  - cbn. by rewrite app_nil_r.
  - change (zip (seq start (length (line :: lines))) (line :: lines))
      with ((start, line) :: zip (seq (S start) (length lines)) lines).
    rewrite !omap_cons_option_list. cbn [foldl].
    rewrite load_line_spec, IH, (assoc_L (++)). f_equal.
    by destruct (line_entry line) as [[source target] |].
Qed.

(* Inserting a list of entries one after the other is putting the layer
   of these entries, the last one first, on top of the table. *)
Lemma foldl_insert_entry (entries : list (pystr * pyval)) (tbl : ticker_table) :
  foldl insert_entry tbl entries = list_to_map (reverse entries) ∪ tbl.
Proof.
  revert tbl. induction entries as [| [k v] entries IH]; intros tbl.
  - cbn. by rewrite (left_id_L ∅ (∪)).
  - cbn [foldl]. rewrite IH, reverse_cons, list_to_map_app. cbn.
    unfold insert_entry. cbn.
    rewrite (insert_union_singleton_l tbl), (insert_empty k v).
    by rewrite (assoc_L (∪)).
Qed.

(* The numbering of the lines, position by position. *)
Lemma enumerate_from_1_lookup (lines : list pystr) (i : nat) :
  enumerate_from_1 lines !! i = (λ line, (S i, line)) <$> lines !! i.
Proof.
  unfold enumerate_from_1. rewrite lookup_zip_with.
  destruct (lines !! i) as [line |] eqn:Hline.
  - rewrite lookup_seq_lt by (by eapply lookup_lt_Some). done.
  - rewrite lookup_seq_ge by (by apply lookup_ge_None). done.
Qed.

(* The entry of a line stands in the layer of the file unless a later line
   has an entry for the same source. *)
Lemma file_entries_last (pre post : list pystr) (line source : pystr)
    (target : pyval) :
  line_entry line = Some (source, target) →
  (∀ later t, later ∈ post → line_entry later ≠ Some (source, t)) →
  file_entries (pre ++ line :: post) !! source = Some target.
Proof.
  intros Hentry Hpost. unfold file_entries.
  rewrite omap_app, omap_cons_option_list, Hentry. cbn [option_list].
  rewrite reverse_app, reverse_app, <- (assoc_L (++)), list_to_map_app.
  apply lookup_union_Some_raw. right. split.
  - apply not_elem_of_list_to_map_1.
    intros ([k v] & Hk & Hin)%list_elem_of_fmap. cbn in Hk. subst k.
    apply elem_of_reverse, list_elem_of_omap in Hin as (later & Hlater & Hl).
    by apply (Hpost later v).
  - cbn. apply lookup_insert_eq.
Qed.

Lemma json_loads_empty : json_loads [] = raise ExcJSONDecodeError "Expecting value".
Proof. reflexivity. Qed.

(* The table and the log after the file was read. *)
Lemma load_file_spec (lines : list pystr) :
  foldl load_line (∅, []) (enumerate_from_1 lines) =
    (file_entries lines, omap line_warning (enumerate_from_1 lines)).
Proof.
  unfold enumerate_from_1. rewrite load_lines_spec, foldl_insert_entry.
  unfold file_entries. by rewrite (right_id_L ∅ (∪)).
Qed.

Lemma file_layer_choice (file_mapping : ticker_table) :
  (if bool_decide (file_mapping ≠ ∅)
   then file_mapping ∪ _default_ticker_mapping
   else _default_ticker_mapping) = file_mapping ∪ _default_ticker_mapping.
Proof.
  case_bool_decide as Hne; [done |].
  rewrite Hne. by rewrite (left_id_L ∅ (∪)).
Qed.
End LoaderProperties.

Section LoaderTheorems.
Context `{UnicodeDB}.

(* load_ticker_mapping with its file phase summarised. *)
Lemma load_ticker_mapping_after_file (file : config_file) (env : pystr) :
  load_ticker_mapping file env =
    let base := file_layer file ∪ _default_ticker_mapping in
    let log := file_phase_log file in
    '(tbl, log') ←
      (if bool_decide (env ≠ []) then
         try_except
           (env_mapping ← json_loads env;
            updated ← dict_update base env_mapping;
            Ok (updated, log ++ [(INFO, EnvLoaded env_mapping)]))
           [ExcJSONDecodeError]
           (λ e, Ok (base, log ++ [(ERROR, EnvParseFailed e)]))
       else Ok (base, log));
    Ok (tbl, log' ++ [(INFO, FinalMapping tbl)]).
Proof.
  unfold load_ticker_mapping.
  destruct file as [| lines [e |]]; cbn [file_layer file_phase_log].
  - by rewrite (left_id_L ∅ (∪)).
  - rewrite load_file_spec. by rewrite (left_id_L ∅ (∪)).
  - rewrite load_file_spec. case_bool_decide as Hne; [done |].
    rewrite Hne. by rewrite (left_id_L ∅ (∪)).
Qed.

Lemma dict_update_dict (tbl : ticker_table) (d : list (pystr * pyval)) :
  dict_update tbl (VDict d) = Ok (list_to_map (reverse d) ∪ tbl).
Proof. cbn. f_equal. apply (foldl_insert_entry d tbl). Qed.

Lemma layered_lookup (top middle bottom : ticker_table) (k : pystr) :
  (top ∪ (middle ∪ bottom)) !! k =
    match top !! k with
    | Some v => Some v
    | None => match middle !! k with
              | Some v => Some v
              | None => bottom !! k
              end
    end.
Proof.
  rewrite !lookup_union.
  by destruct (top !! k), (middle !! k), (bottom !! k).
Qed.

(** C5. The table that load_ticker_mapping leaves is made of three layers,
    a later one overriding an earlier one key by key: the built-in
    defaults, then the entries of the mapping file (sources uppercased),
    then the members of the JSON object in TICKER_MAPPING.  With the
    default {GC: MGC}, the file lines GC=MGC and cl=MCL and the
    environment value {"CL": "MCLX"}, the table is exactly
    {GC: MGC, CL: MCLX}. *)
Theorem load_ticker_mapping_layers :
  (∀ (file : config_file) (env : pystr) (d : list (pystr * pyval)),
     json_loads env = Ok (VDict d) →
     ∃ tbl log,
       load_ticker_mapping file env = Ok (tbl, log) ∧
       ∀ k, tbl !! k =
              match (list_to_map (reverse d) : ticker_table) !! k with
              | Some v => Some v
              | None => match file_layer file !! k with
                        | Some v => Some v
                        | None => _default_ticker_mapping !! k
                        end
              end) ∧
  (∃ log,
     load_ticker_mapping
       (FileLines [str "GC=MGC"; str "cl=MCL"] None) (jstr "{'CL':'MCLX'}")
     = Ok ({[ str "GC" := VStr (str "MGC"); str "CL" := VStr (str "MCLX") ]},
           log)).
Proof.
  split.
  - intros file env d Hjson.
    rewrite load_ticker_mapping_after_file. cbn zeta.
    rewrite bool_decide_eq_true_2; last first.
    { intros ->. by rewrite json_loads_empty in Hjson. }
    rewrite Hjson. cbn [mbind result_bind]. rewrite dict_update_dict.
    cbn [mbind result_bind try_except].
    eexists _, _. split; [reflexivity |].
    intros k. apply layered_lookup.
  - eexists. vm_compute. reflexivity.
Qed.

(* A value of TICKER_MAPPING on which json.loads raises another exception
   than JSONDecodeError is not ignored: the exception leaves
   load_ticker_mapping. *)
Lemma load_env_error_escapes (file : config_file) (env : pystr) (e : pyexc) :
  json_loads env = Raise e → exc_cls e ≠ ExcJSONDecodeError →
  load_ticker_mapping file env = Raise e.
Proof.
  intros Hjson Hcls.
  rewrite load_ticker_mapping_after_file. cbn zeta.
  rewrite bool_decide_eq_true_2; last first.
  { intros ->. rewrite json_loads_empty in Hjson. by injection Hjson as <-. }
  rewrite Hjson. cbn [mbind result_bind try_except].
  by destruct (exc_cls e).
Qed.

(** C6 (amended). A malformed line of the mapping file or a TICKER_MAPPING
    value that json.loads rejects as not being JSON does not stop the
    loading and takes no valid entry away.  The log of the run is the
    warnings for the lines, the record of the file, for such a
    TICKER_MAPPING value the record of the error, and the final record.
    A record about a line is a warning for a line that is neither blank
    nor a comment and gives no entry, so that blank lines and comments
    are skipped without any log record; every line without '=', with an
    empty source or with an empty target has its warning; every
    well-formed line is loaded, the last one for a source giving its
    value; and the table is the defaults overridden by the file. *)
Theorem load_ticker_mapping_skips_malformed (lines : list pystr) :
  let tbl := file_entries lines ∪ _default_ticker_mapping in
  let file_log :=
    omap line_warning (enumerate_from_1 lines) ++
    [if bool_decide (file_entries lines ≠ ∅)
     then (INFO, FileLoaded (file_entries lines))
     else (INFO, FileEmpty)] in
  load_ticker_mapping (FileLines lines None) []
    = Ok (tbl, file_log ++ [(INFO, FinalMapping tbl)]) ∧
  (∀ env e,
     env ≠ [] → json_loads env = Raise e → exc_cls e = ExcJSONDecodeError →
     load_ticker_mapping (FileLines lines None) env
       = Ok (tbl, file_log ++ [(ERROR, EnvParseFailed e);
                               (INFO, FinalMapping tbl)])) ∧
  (∀ r n,
     r ∈ file_log → record_line r = Some n →
     r.1 = WARNING ∧
     ∃ line, (1 ≤ n)%nat ∧ lines !! (n - 1)%nat = Some line ∧
             blank_or_comment line = false ∧ line_entry line = None) ∧
  (∀ i line,
     lines !! i = Some line →
     blank_or_comment line = false → line_entry line = None →
     (WARNING,
      if bool_decide (61%N ∈ strip line)
      then LineSkipped (S i) (strip line)
      else LineWithoutEq (S i) (strip line)) ∈ file_log) ∧
  (∀ line source target,
     line ∈ lines → line_entry line = Some (source, target) →
     is_Some (tbl !! source)) ∧
  (∀ pre line post source target,
     lines = pre ++ line :: post →
     line_entry line = Some (source, target) →
     (∀ later t, later ∈ post → line_entry later ≠ Some (source, t)) →
     tbl !! source = Some target).
Proof.
  intros tbl file_log.
  split; [| split; [| split; [| split; [| split]]]].
  - rewrite load_ticker_mapping_after_file. cbn zeta.
    cbn [file_layer file_phase_log].
    rewrite bool_decide_eq_false_2 by tauto. reflexivity.
  - intros env e Hne Hjson Hcls.
    rewrite load_ticker_mapping_after_file. cbn zeta.
    cbn [file_layer file_phase_log].
    rewrite bool_decide_eq_true_2 by done.
    rewrite Hjson. cbn [mbind result_bind try_except]. rewrite Hcls. cbn.
    by rewrite <- (assoc_L (++)).
  - intros r n [Hin | Hin]%elem_of_app Hline.
    + apply list_elem_of_omap in Hin as ([m line] & Hm & Hw).
      apply list_elem_of_lookup in Hm as [i Hi].
      rewrite enumerate_from_1_lookup in Hi.
      destruct (lines !! i) as [line' |] eqn:Hlines; [| done].
      injection Hi as <- ->.
      unfold line_warning in Hw.
      destruct (blank_or_comment line) eqn:Hbc; [done |].
      assert (Hentry : line_entry line = None ∧ r.1 = WARNING ∧
                       record_line r = Some (S i)).
      { case_bool_decide as Heq.
        - injection Hw as <-. split; [| done].
          unfold line_entry. rewrite Hbc.
          by rewrite (bool_decide_eq_true_2 (61%N ∉ strip line)).
        - destruct (line_entry line); [done |].
          by injection Hw as <-. }
      destruct Hentry as (Hentry & Hlevel & Hrecord).
      rewrite Hrecord in Hline. injection Hline as <-.
      split; [done |]. exists line.
      rewrite Nat.sub_1_r. cbn [Nat.pred]. split; [lia | done].
    + apply list_elem_of_singleton in Hin as ->.
      by case_bool_decide.
  - intros i line Hi Hbc Hentry.
    apply elem_of_app. left. apply list_elem_of_omap.
    exists (S i, line). split.
    + apply list_elem_of_lookup. exists i.
      by rewrite enumerate_from_1_lookup, Hi.
    + unfold line_warning. rewrite Hbc, Hentry.
      by destruct (decide (61%N ∈ strip line));
        [rewrite bool_decide_eq_false_2, bool_decide_eq_true_2 by tauto
        |rewrite bool_decide_eq_true_2, bool_decide_eq_false_2 by tauto].
  - intros line source target Hin Hentry. unfold tbl.
    rewrite lookup_union.
    destruct (file_entries lines !! source) as [v |] eqn:Hv.
    + by destruct (_default_ticker_mapping !! source).
    + exfalso. unfold file_entries in Hv.
      apply not_elem_of_list_to_map in Hv. apply Hv.
      apply list_elem_of_fmap. exists (source, target). split; [done |].
      apply elem_of_reverse, list_elem_of_omap. eauto.
  - intros pre line post source target Hlines Hentry Hpost. unfold tbl.
    rewrite Hlines.
    apply lookup_union_Some_l. by apply file_entries_last.
Qed.
End LoaderTheorems.

Lemma load_ticker_mapping_layers_witness :
  json_loads (jstr "{'CL':'MCLX'}") = Ok (VDict [(str "CL", VStr (str "MCLX"))]) ∧
  ∃ tbl log,
    load_ticker_mapping (H := ascii_db)
      (FileLines [str "GC=MGC"; str "cl=MCL"] None) (jstr "{'CL':'MCLX'}")
    = Ok (tbl, log) ∧
    ∀ k, tbl !! k =
           match (list_to_map (reverse [(str "CL", VStr (str "MCLX"))])
                  : ticker_table) !! k with
           | Some v => Some v
           | None =>
               match file_layer (H := ascii_db)
                       (FileLines [str "GC=MGC"; str "cl=MCL"] None) !! k with
               | Some v => Some v
               | None => _default_ticker_mapping !! k
               end
           end.
Proof.
  split; [reflexivity |].
  apply (proj1 (@load_ticker_mapping_layers ascii_db)
           (FileLines [str "GC=MGC"; str "cl=MCL"] None) (jstr "{'CL':'MCLX'}")
           [(str "CL", VStr (str "MCLX"))]).
  reflexivity.
Defined.


Lemma load_ticker_mapping_skips_malformed_witness :
  (str "{bad" ≠ [] ∧
   json_loads (str "{bad")
     = Raise (PyExc ExcJSONDecodeError (str "Expecting value")) ∧
   exc_cls (PyExc ExcJSONDecodeError (str "Expecting value"))
     = ExcJSONDecodeError) ∧
  load_ticker_mapping (H := ascii_db) (FileLines sample_lines None) (str "{bad")
    = Ok (file_entries (H := ascii_db) sample_lines ∪ _default_ticker_mapping,
          (omap (line_warning (H := ascii_db)) (enumerate_from_1 sample_lines) ++
           [if bool_decide (file_entries (H := ascii_db) sample_lines ≠ ∅)
            then (INFO, FileLoaded (file_entries (H := ascii_db) sample_lines))
            else (INFO, FileEmpty)]) ++
          [(ERROR, EnvParseFailed
                     (PyExc ExcJSONDecodeError (str "Expecting value")));
           (INFO, FinalMapping
                    (file_entries (H := ascii_db) sample_lines
                     ∪ _default_ticker_mapping))]).
Proof.
  split; [split; [discriminate | split; reflexivity] |].
  apply (proj1 (proj2 (@load_ticker_mapping_skips_malformed ascii_db sample_lines))
           (str "{bad") (PyExc ExcJSONDecodeError (str "Expecting value"))).
  - discriminate.
  - reflexivity.
  - reflexivity.
Defined.

(* The claim C6 as it stands fails where it has a warning for every
   skipped line: a comment and a blank line are skipped and the log holds
   no record about them, only the two records of a run without faults. *)
Lemma comment_and_blank_line_without_warning :
  let tbl : ticker_table :=
    {[ str "GC" := VStr (str "MGC"); str "CL" := VStr (str "MCL") ]} in
  load_ticker_mapping (H := ascii_db)
    (FileLines [str "# comment"; str ""; str "CL=MCL"] None) []
  = Ok (tbl,
        [(INFO, FileLoaded {[ str "CL" := VStr (str "MCL") ]});
         (INFO, FinalMapping tbl)]).
Proof. vm_compute. reflexivity. Qed.

(* The sample file, run with a value that is not JSON: the two good lines
   are in the table with the default, and the log holds the three warnings,
   the record of the file, the error for the value and the final record. *)
Example load_sample_lines :
  let file_mapping : ticker_table :=
    {[ str "CL" := VStr (str "MCL"); str "ES" := VStr (str "MES") ]} in
  let tbl : ticker_table :=
    {[ str "GC" := VStr (str "MGC"); str "CL" := VStr (str "MCL");
       str "ES" := VStr (str "MES") ]} in
  load_ticker_mapping (H := ascii_db) (FileLines sample_lines None) (str "{bad")
  = Ok (tbl,
        [(WARNING, LineWithoutEq 1 (str "garbage_no_equals"));
         (WARNING, LineSkipped 5 (str "=x"));
         (WARNING, LineSkipped 6 (str "y="));
         (INFO, FileLoaded file_mapping);
         (ERROR, EnvParseFailed
                   (PyExc ExcJSONDecodeError (str "Expecting value")));
         (INFO, FinalMapping tbl)]).
Proof. vm_compute. reflexivity. Qed.

(* Values of TICKER_MAPPING on which json.loads raises something else: an
   int of more than 4300 digits (ValueError) and arrays nested deeper than
   the recursion limit allows (RecursionError).  Neither is caught, and
   load_ticker_mapping raises. *)
Example load_env_beyond_limits :
  match load_ticker_mapping (H := ascii_db) NoFile (replicate 4301 49%N) with
  | Raise e => exc_cls e = ExcValueError
  | Ok _ => False
  end ∧
  match load_ticker_mapping (H := ascii_db) NoFile (replicate 2000 91%N) with
  | Raise e => exc_cls e = ExcRecursionError
  | Ok _ => False
  end ∧
  is_ok (json_loads (replicate 4300 49%N)) = true ∧
  is_ok (json_loads (replicate 994 91%N ++ replicate 994 93%N)) = true ∧
  match json_loads (replicate 995 91%N ++ replicate 995 93%N) with
  | Raise e => exc_cls e = ExcRecursionError
  | Ok _ => False
  end.
Proof.
  split; [| split; [| split; [| split]]]; vm_compute; reflexivity.
Qed.

(* --------------------------------------------------------------------- *)
(* 19. broadcast_signal                                                  *)
(* --------------------------------------------------------------------- *)

Lemma failed_clients_cons (ev : send_event) (evs : list send_event) :
  failed_clients (ev :: evs) =
    (if sent_ok ev then ∅ else {[sent_to ev]}) ∪ failed_clients evs.
Proof.
  unfold failed_clients. rewrite filter_cons.
  destruct (sent_ok ev); cbn.
  - rewrite decide_False by done. set_solver.
  - rewrite decide_True by done. cbn. set_solver.
Qed.

Section BroadcastProperties.
Context {Net : Type}.
Variable send : client → pystr → Net → result unit * Net.

(* The loop over clients_copy makes exactly the sends of the specification
   and collects exactly the handles whose send failed. *)
Lemma send_to_each_spec (message : pystr) (clients_copy : list client)
    (disconnected : gset client) (n : Net) (trace : list send_event) :
  ∃ evs n',
    send_to_each send message clients_copy disconnected n trace
      = Ok (failed_clients evs ∪ disconnected, n', trace ++ evs) ∧
    sends_run send message clients_copy n evs n'.
Proof.
  revert disconnected n trace.
  induction clients_copy as [| c rest IH]; intros disconnected n trace.
  - exists [], n. split; [| constructor].
    cbn. rewrite app_nil_r. f_equal. f_equal. f_equal.
    unfold failed_clients. cbn. set_solver.
  - cbn [send_to_each].
    destruct (send c message n) as [outcome n1] eqn:Hsend.
    destruct outcome as [[] | e]; cbn.
    + destruct (IH disconnected n1 (trace ++ [SendEvent c message true]))
        as (evs & n' & -> & Hrun).
      exists (SendEvent c message true :: evs), n'. split.
      * rewrite failed_clients_cons, <- (assoc_L (++)). cbn.
        f_equal. f_equal. f_equal. set_solver.
      * by apply (sends_next send message c rest n n1 n' (Ok ())).
    + destruct (IH ({[c]} ∪ disconnected) n1 (trace ++ [SendEvent c message false]))
        as (evs & n' & -> & Hrun).
      exists (SendEvent c message false :: evs), n'. split.
      * rewrite failed_clients_cons, <- (assoc_L (++)). cbn.
        f_equal. f_equal. f_equal. set_solver.
      * by apply (sends_next send message c rest n n1 n' (Raise e)).
Qed.

(* Every handle gets one event, in order, with the message. *)
Lemma sends_run_events (message : pystr) (l : list client) (n n' : Net)
    (evs : list send_event) :
  sends_run send message l n evs n' →
  sent_to <$> evs = l ∧ Forall (λ ev, sent_message ev = message) evs.
Proof.
  induction 1 as [| c rest n n1 n' outcome evs _ _ [IH1 IH2]]; [done |].
  split; [cbn; by f_equal | by constructor].
Qed.

(* When the outcome of a send depends on the handle only, the events are
   known from the handles. *)
Lemma sends_run_fixed_outcome (message : pystr) (okp : client → bool)
    (l : list client) (n n' : Net) (evs : list send_event) :
  sends_run send message l n evs n' →
  (∀ c m, c ∈ l → is_ok (send c message m).1 = okp c) →
  evs = (λ c, SendEvent c message (okp c)) <$> l.
Proof.
  induction 1 as [| c rest n n1 n' outcome evs Hsend _ IH]; intros Hok; [done |].
  cbn. f_equal.
  - f_equal. rewrite <- (Hok c n) by left. by rewrite Hsend.
  - apply IH. intros c' m Hin. apply Hok. by right.
Qed.

Lemma failed_clients_fixed_outcome (message : pystr) (okp : client → bool)
    (l : list client) (c : client) :
  c ∈ failed_clients ((λ c, SendEvent c message (okp c)) <$> l) ↔
  c ∈ l ∧ okp c = false.
Proof.
  unfold failed_clients.
  rewrite elem_of_list_to_set, list_elem_of_fmap. split.
  - intros (ev & -> & Hev). apply list_elem_of_filter in Hev as [Hfail Hev].
    apply list_elem_of_fmap in Hev as (c' & -> & Hin). done.
  - intros [Hin Hfail]. exists (SendEvent c message (okp c)). split; [done |].
    apply list_elem_of_filter. split; [done |].
    apply list_elem_of_fmap. eauto.
Qed.

(* broadcast_signal, enabled, seen through the specification. *)
Lemma broadcast_signal_enabled (signal_data : pyval) (st : ws_state Net) :
  ∃ st' evs,
    broadcast_signal send true signal_data st = Ok st' ∧
    sends_run send (json_dumps signal_data) (elements (_ws_clients st))
      (net st) evs (net st') ∧
    io_trace st' = io_trace st ++ evs ∧
    _ws_clients st' = _ws_clients st ∖ failed_clients evs.
Proof.
  unfold broadcast_signal. cbn [negb].
  case_bool_decide as Hsize.
  - apply size_empty_inv in Hsize. apply leibniz_equiv in Hsize.
    exists st, []. rewrite Hsize, elements_empty, app_nil_r.
    repeat split. constructor.
  - destruct (send_to_each_spec (json_dumps signal_data)
                (elements (_ws_clients st)) ∅ (net st) (io_trace st))
      as (evs & n' & -> & Hrun).
    cbn [mbind result_bind].
    rewrite (right_id_L ∅ (∪)).
    case_bool_decide as Hfailed.
    + eexists _, evs. repeat split; done.
    + eexists _, evs. repeat split; [done .. |]. cbn.
      rewrite Hfailed. set_solver.
Qed.
End BroadcastProperties.

(** C1. broadcast_signal sends the serialized signal to every handle of its
    snapshot, one after the other and whatever the outcome of the sends
    before; a send that raises is never raised to the caller; afterwards
    the registry is what it was minus exactly the handles whose send
    failed.  With three registered handles of which the second fails, the
    registry afterwards holds exactly the first and the third, and both
    were sent the same message. *)
Theorem broadcast_signal_prunes_failed {Net : Type}
    (send : client → pystr → Net → result unit * Net)
    (WS_ENABLED : bool) (signal_data : pyval) (st : ws_state Net) :
  let message := json_dumps signal_data in
  let snapshot := if WS_ENABLED then elements (_ws_clients st) else [] in
  ∃ st' evs,
    broadcast_signal send WS_ENABLED signal_data st = Ok st' ∧
    sends_run send message snapshot (net st) evs (net st') ∧
    sent_to <$> evs = snapshot ∧
    Forall (λ ev, sent_message ev = message) evs ∧
    io_trace st' = io_trace st ++ evs ∧
    _ws_clients st' = _ws_clients st ∖ failed_clients evs ∧
    ∀ a b c : client,
      WS_ENABLED = true → a ≠ b → a ≠ c → b ≠ c →
      _ws_clients st = {[a; b; c]} →
      (∀ n, is_ok (send a message n).1 = true) →
      (∀ n, is_ok (send b message n).1 = false) →
      (∀ n, is_ok (send c message n).1 = true) →
      _ws_clients st' = {[a; c]} ∧
      SendEvent a message true ∈ evs ∧
      SendEvent b message false ∈ evs ∧
      SendEvent c message true ∈ evs.
Proof.
  intros message snapshot. subst snapshot.
  destruct WS_ENABLED.
  - destruct (broadcast_signal_enabled send signal_data st)
      as (st' & evs & Hrun & Hsends & Htrace & Hreg).
    destruct (sends_run_events send _ _ _ _ _ Hsends) as [Hto Hmsg].
    exists st', evs. repeat (split; [done |]).
    intros a b c _ Hab Hac Hbc Hthree Ha Hb Hc.
    set (okp := λ x : client, bool_decide (x ≠ b)).
    assert (Hevs : evs = (λ x, SendEvent x message (okp x))
                           <$> elements (_ws_clients st)).
    { apply (sends_run_fixed_outcome send message okp _ _ _ _ Hsends).
      intros x n. rewrite elem_of_elements, Hthree. unfold okp.
      intros Hx. case_bool_decide as Hxb.
      - assert (x = a ∨ x = c) as [-> | ->] by set_solver; done.
      - rewrite Hxb. done. }
    assert (Hfailed : failed_clients evs = {[b]}).
    { apply set_eq. intros x.
      rewrite Hevs, failed_clients_fixed_outcome, elem_of_elements, Hthree.
      unfold okp. case_bool_decide; set_solver. }
    assert (Hin : ∀ x, x ∈ _ws_clients st →
                       SendEvent x message (okp x) ∈ evs).
    { intros x Hx. rewrite Hevs. apply list_elem_of_fmap.
      exists x. by rewrite elem_of_elements. }
    split; [rewrite Hreg, Hfailed, Hthree; set_solver |].
    split; [| split].
    + replace true with (okp a) by (by apply bool_decide_eq_true_2).
      apply Hin. rewrite Hthree. set_solver.
    + replace false with (okp b)
        by (apply bool_decide_eq_false_2; by intros ?).
      apply Hin. rewrite Hthree. set_solver.
    + replace true with (okp c)
        by (apply bool_decide_eq_true_2; by intros ->).
      apply Hin. rewrite Hthree. set_solver.
  - exists st, []. cbn. rewrite app_nil_r.
    repeat (split; [done || constructor |]).
    split; [unfold failed_clients; cbn; set_solver |].
    by intros a b c ?.
Qed.

Lemma broadcast_signal_prunes_failed_witness :
  ∃ st',
    broadcast_signal (flaky_send {[2%nat]}) true sample_signal three_clients
      = Ok st' ∧
    _ws_clients st' = {[1%nat; 3%nat]}.
Proof.
  destruct (broadcast_signal_prunes_failed
              (flaky_send {[2%nat]}) true sample_signal three_clients)
    as (st' & evs & Hrun & _ & _ & _ & _ & _ & Hthree).
  exists st'. split; [exact Hrun |].
  apply (Hthree 1%nat 2%nat 3%nat); try reflexivity; try lia; intros n;
    reflexivity.
Defined.

(* The three clients, run: the first and the third have the message in
   their inbox, the second has none and is gone from the registry. *)
Example three_clients_second_fails :
  ∃ trace,
    broadcast_signal (flaky_send {[2%nat]}) true sample_signal three_clients
      = Ok (WsState {[1%nat; 3%nat]}
              {[ 1%nat := [json_dumps sample_signal];
                 3%nat := [json_dumps sample_signal] ]}
              trace) ∧
    json_dumps sample_signal
      = jstr "{'Ticker': 'MGC', 'Action': 'buy', 'Price': 1950.5, 'Interval': 10}".
Proof. eexists. split; vm_compute; reflexivity. Qed.

(** C2. broadcast_signal returns at once, without any send, when
    broadcasting is disabled by the configuration, and also when the
    registry is empty: nothing is raised, and the registry, the network and
    the record of sends are as before. *)
Theorem broadcast_signal_noop {Net : Type}
    (send : client → pystr → Net → result unit * Net)
    (WS_ENABLED : bool) (signal_data : pyval) (st : ws_state Net) :
  WS_ENABLED = false ∨ _ws_clients st = ∅ →
  broadcast_signal send WS_ENABLED signal_data st = Ok st.
Proof.
  intros [-> | Hempty]; [done |].
  unfold broadcast_signal. destruct WS_ENABLED; [| done]. cbn [negb].
  rewrite Hempty. by rewrite bool_decide_eq_true_2 by apply size_empty.
Qed.

Lemma broadcast_signal_noop_witness :
  (false = false ∨ _ws_clients three_clients = ∅) ∧
  (true = false ∨
   _ws_clients (WsState ∅ (∅ : gmap client (list pystr)) []) = ∅) ∧
  broadcast_signal (flaky_send {[2%nat]}) false sample_signal three_clients
    = Ok three_clients ∧
  broadcast_signal (flaky_send {[2%nat]}) true sample_signal (WsState ∅ ∅ [])
    = Ok (WsState ∅ ∅ []).
Proof.
  split; [left; reflexivity |]. split; [right; reflexivity |]. split.
  - apply (broadcast_signal_noop (flaky_send {[2%nat]}) false sample_signal
             three_clients).
    left. reflexivity.
  - apply (broadcast_signal_noop (flaky_send {[2%nat]}) true sample_signal
             (WsState ∅ ∅ [])).
    right. reflexivity.
Defined.

(* --------------------------------------------------------------------- *)
(* 20. The lazy start of the broadcast loop                              *)
(* --------------------------------------------------------------------- *)

Ltac close_lone_inv :=
  eexists; cbn; split; [reflexivity |];
  split; [rewrite ?length_insert; cbn; first [done | lia]
         | first [by intros [=] | done]].

Lemma lone_request_inv_step (WS_ENABLED : bool) (w : Dispatch.world)
    (a : Dispatch.actor) :
  Dispatch.lone_request_inv w →
  Dispatch.lone_request_inv (Dispatch.step WS_ENABLED w a).
Proof.
  intros (pc & Hh & Hlen & Hearly).
  destruct w as [bl blt ths hs]. cbn in *. subst hs.
  destruct a as [i | t]; cbn.
  - unfold Dispatch.step_handler. cbn.
    destruct i as [| i]; cbn; [| by exists pc].
    destruct pc; cbn in *; try (specialize (Hearly eq_refl); subst ths).
    + destruct WS_ENABLED; close_lone_inv.
    + destruct bl; close_lone_inv.
    + destruct blt as [t |]; [unfold Dispatch.is_alive; cbn |]; close_lone_inv.
    + close_lone_inv.
    + destruct blt as [t |]; [| close_lone_inv].
      destruct (ths !! t) as [[] |] eqn:Ht; close_lone_inv.
    + close_lone_inv.
    + destruct bl as [l |]; [destruct (Dispatch.is_running _ l) |];
        close_lone_inv.
    + close_lone_inv.
  - unfold Dispatch.step_thread. cbn.
    destruct (ths !! t) as [[] |] eqn:Ht; cbn; try (by exists pc).
    + exists pc. cbn. split; [done |]. rewrite length_insert. split; [done |].
      intros Hpc. rewrite (Hearly Hpc) in Ht. done.
    + exists pc. cbn. split; [done |]. rewrite length_insert. split; [done |].
      intros Hpc. rewrite (Hearly Hpc) in Ht. done.
Qed.

(* A request that is alone starts one event-loop thread at most, however
   its steps and those of the thread are interleaved. *)
Lemma lone_request_starts_at_most_one (WS_ENABLED : bool)
    (schedule : list Dispatch.actor) :
  (Dispatch.started_threads
     (Dispatch.run WS_ENABLED schedule (Dispatch.initial 1)) ≤ 1)%nat.
Proof.
  assert (Hinv : Dispatch.lone_request_inv
                   (Dispatch.run WS_ENABLED schedule (Dispatch.initial 1))).
  { unfold Dispatch.run.
    assert (Hinit : Dispatch.lone_request_inv (Dispatch.initial 1)).
    { exists Dispatch.AtEnabledCheck. cbn. auto. }
    revert Hinit. generalize (Dispatch.initial 1).
    induction schedule as [| a schedule IH]; intros w Hw; [done |].
    cbn. apply IH. by apply lone_request_inv_step. }
  destruct Hinv as (pc & _ & Hlen & _).
  unfold Dispatch.started_threads.
  etransitivity; [apply length_filter | done].
Qed.

(* Alone and unhindered, the request starts the loop and submits to it. *)
Example lone_request_submits :
  Dispatch.run true
    (replicate 5 (Dispatch.Handler 0)) (Dispatch.initial 1)
    = Dispatch.World None (Some 0%nat) [Dispatch.Started] [Dispatch.AtSleep] ∧
  Dispatch.run true
    (replicate 5 (Dispatch.Handler 0) ++
     [Dispatch.LoopThread 0; Dispatch.LoopThread 0;
      Dispatch.Handler 0; Dispatch.Handler 0])
    (Dispatch.initial 1)
    = Dispatch.World (Some 0%nat) (Some 0%nat) [Dispatch.Running]
        [Dispatch.Finished (Dispatch.Submitted 0)].
Proof. by split. Qed.

(** C3 (what the code does where the claim fails). Two requests that enter
    broadcast_signal_async while no loop exists can both pass the test of
    _init_broadcast_loop before either has assigned
    _broadcast_loop_thread; each then starts a thread of its own, and two
    event loops run. *)
Theorem two_submitters_start_two_loops :
  let w := Dispatch.run true Dispatch.racing_schedule (Dispatch.initial 2) in
  Dispatch.started_threads w = 2%nat ∧
  Dispatch.running_loops w = 2%nat ∧
  Dispatch.threads w = [Dispatch.Running; Dispatch.Running] ∧
  Dispatch.handlers w =
    [Dispatch.Finished (Dispatch.Submitted 1);
     Dispatch.Finished (Dispatch.Submitted 1)].
Proof. repeat split. Qed.

(* --------------------------------------------------------------------- *)
(* 21. webhook_listener                                                  *)
(* --------------------------------------------------------------------- *)

Section WebhookProperties.
Context `{UnicodeDB}.

(* The handler on a request object whose three conversions succeed. *)
Lemma webhook_listener_ok (WS_ENABLED : bool) (tbl : ticker_table)
    (d : list (pystr * pyval)) (mapped pv iv : pyval) :
  map_ticker tbl (field d "ticker" (VStr UNKNOWN_TICKER)) = Ok mapped →
  price_value (field d "price" (VStr UNKNOWN_PRICE)) = Ok pv →
  interval_value (field d "interval" VNone) = Ok iv →
  webhook_listener WS_ENABLED tbl (Ok (VDict d)) =
    (Response 200 success_body,
     if WS_ENABLED
     then Some (make_signal mapped (field d "action" (VStr NO_ACTION)) pv iv)
     else None).
Proof.
  intros Hticker Hprice Hinterval.
  unfold webhook_listener, build_signal, field in *. cbn [mbind result_bind py_get].
  rewrite Hprice. cbn [mbind result_bind].
  rewrite Hinterval. cbn [mbind result_bind].
  rewrite Hticker. reflexivity.
Qed.

Lemma price_value_unreadable (d : list (pystr * pyval)) :
  unreadable_price (dict_lookup d (str "price")) = true →
  price_value (field d "price" (VStr UNKNOWN_PRICE)) = Ok VNone.
Proof.
  unfold field. destruct (dict_lookup d (str "price")) as [v |]; [| done].
  destruct v as [| [] | | | s | [] | []]; try done.
  cbn [from_option id unreadable_price]. intros Hs.
  unfold price_value.
  destruct (truthy (VStr s) && negb (eq_str (VStr s) UNKNOWN_PRICE)); [| done].
  cbn. unfold float_of_str in *.
  by destruct (parse_float_ascii (to_ascii_decimal s)).
Qed.

Lemma interval_value_unreadable (d : list (pystr * pyval)) :
  unreadable_interval (dict_lookup d (str "interval")) = true →
  interval_value (field d "interval" VNone) = Ok VNone.
Proof.
  unfold field. destruct (dict_lookup d (str "interval")) as [v |]; [| done].
  destruct v as [| [] | | | s | [] | []]; try done.
  cbn [from_option id unreadable_interval]. intros Hs.
  unfold interval_value. destruct (truthy (VStr s)); [| done].
  cbn. unfold int_of_str, int_of_literal in *.
  destruct (int_literal (to_ascii_decimal s)) as [[neg ds] |]; [| done].
  by case_bool_decide.
Qed.

Lemma price_value_zero (v : pyval) :
  is_zero_number v = true → price_value v = Ok VNone.
Proof.
  destruct v as [| | z | [neg m e | |] | | |]; try done; cbn; intros Hz.
  - unfold price_value. cbn. by rewrite Hz.
  - unfold price_value. cbn. by rewrite Hz.
Qed.

Lemma interval_value_zero (v : pyval) :
  is_zero_number v = true → interval_value v = Ok VNone.
Proof.
  destruct v as [| | z | [neg m e | |] | | |]; try done; cbn; intros Hz.
  - unfold interval_value. cbn. by rewrite Hz.
  - unfold interval_value. cbn. by rewrite Hz.
Qed.
End WebhookProperties.

Section WebhookTheorems.
Context `{UnicodeDB}.

(** C7. With GC mapped to MGC, the request body
    {"ticker":"GC","action":"buy","price":"1950.5","interval":"10"} gives
    the outbound payload
    {"Ticker":"MGC","Action":"buy","Price":1950.5,"Interval":10}: these
    four names in this order, the ticker mapped, the action as it came, the
    price a float, the interval an int; and the answer is HTTP 200 with the
    body {"status":"success","message":"Signal received"}. *)
Theorem webhook_end_to_end (tbl : ticker_table) :
  tbl !! str "GC" = Some (VStr (str "MGC")) →
  ∃ signal_data,
    webhook_listener true tbl (json_loads request_gc)
      = (Response 200 success_body, Some signal_data) ∧
    signal_data
      = VDict [(str "Ticker", VStr (str "MGC")); (str "Action", VStr (str "buy"));
               (str "Price", VFloat f_1950_5); (str "Interval", VInt 10)] ∧
    json_loads (jstr "{'Ticker':'MGC','Action':'buy','Price':1950.5,'Interval':10}")
      = Ok signal_data ∧
    json_dumps signal_data
      = jstr "{'Ticker': 'MGC', 'Action': 'buy', 'Price': 1950.5, 'Interval': 10}" ∧
    json_loads (jstr "{'status':'success','message':'Signal received'}")
      = Ok success_body.
Proof.
  intros Hgc.
  exists (VDict [(str "Ticker", VStr (str "MGC")); (str "Action", VStr (str "buy"));
                 (str "Price", VFloat f_1950_5); (str "Interval", VInt 10)]).
  split; [| repeat split; vm_compute; reflexivity].
  assert (Hbody : json_loads request_gc =
            Ok (VDict [(str "ticker", VStr (str "GC"));
                       (str "action", VStr (str "buy"));
                       (str "price", VStr (str "1950.5"));
                       (str "interval", VStr (str "10"))]))
    by (vm_compute; reflexivity).
  rewrite Hbody.
  rewrite (webhook_listener_ok true tbl _
             (VStr (str "MGC")) (VFloat f_1950_5) (VInt 10)).
  - vm_compute. reflexivity.
  - change (field _ "ticker" _) with (VStr (str "GC")).
    rewrite map_ticker_str by done.
    change (upper (str "GC")) with (str "GC"). by rewrite Hgc.
  - vm_compute. reflexivity.
  - vm_compute. reflexivity.
Qed.

(** C8 (amended). On a request object whose ticker can be mapped, a price
    that is missing, null, a str that float() does not accept, a list, an
    object or false is sent on as null, and so is an interval of that kind
    (with int() for float()); the request is answered with HTTP 200 as long
    as the other of the two fields converts.  The boolean true is read
    as the number one. *)
Theorem unreadable_field_is_null (WS_ENABLED : bool) (tbl : ticker_table)
    (d : list (pystr * pyval)) (mapped : pyval) :
  map_ticker tbl (field d "ticker" (VStr UNKNOWN_TICKER)) = Ok mapped →
  let answer (pv iv : pyval) :=
    (Response 200 success_body,
     if WS_ENABLED
     then Some (make_signal mapped (field d "action" (VStr NO_ACTION)) pv iv)
     else None) in
  (∀ iv,
     unreadable_price (dict_lookup d (str "price")) = true →
     interval_value (field d "interval" VNone) = Ok iv →
     webhook_listener WS_ENABLED tbl (Ok (VDict d)) = answer VNone iv) ∧
  (∀ pv,
     unreadable_interval (dict_lookup d (str "interval")) = true →
     price_value (field d "price" (VStr UNKNOWN_PRICE)) = Ok pv →
     webhook_listener WS_ENABLED tbl (Ok (VDict d)) = answer pv VNone) ∧
  (unreadable_price (dict_lookup d (str "price")) = true →
   unreadable_interval (dict_lookup d (str "interval")) = true →
   webhook_listener WS_ENABLED tbl (Ok (VDict d)) = answer VNone VNone) ∧
  price_value (VBool true) = Ok (VFloat f_1) ∧
  interval_value (VBool true) = Ok (VInt 1).
Proof.
  intros Hticker answer. subst answer. cbn beta.
  split; [| split; [| split; [| by split]]].
  - intros iv Hprice Hinterval.
    apply webhook_listener_ok; [done | by apply price_value_unreadable | done].
  - intros pv Hinterval Hprice.
    apply webhook_listener_ok; [done | done | by apply interval_value_unreadable].
  - intros Hprice Hinterval.
    apply webhook_listener_ok;
      [done | by apply price_value_unreadable | by apply interval_value_unreadable].
Qed.

(** C10 (amended). On a request object whose ticker can be mapped, a price
    that is the number zero (the int 0 or the float 0.0 of either sign) is
    sent on as null, and so is an interval that is the number zero, as long
    as the other of the two fields converts: a falsy value is treated as an
    absent one before any conversion.  The str "0" is not falsy: as a
    price it is converted to the float 0.0. *)
Theorem zero_number_is_null (WS_ENABLED : bool) (tbl : ticker_table)
    (d : list (pystr * pyval)) (mapped : pyval) :
  map_ticker tbl (field d "ticker" (VStr UNKNOWN_TICKER)) = Ok mapped →
  let answer (pv iv : pyval) :=
    (Response 200 success_body,
     if WS_ENABLED
     then Some (make_signal mapped (field d "action" (VStr NO_ACTION)) pv iv)
     else None) in
  (∀ iv,
     is_zero_number (field d "price" (VStr UNKNOWN_PRICE)) = true →
     interval_value (field d "interval" VNone) = Ok iv →
     webhook_listener WS_ENABLED tbl (Ok (VDict d)) = answer VNone iv) ∧
  (∀ pv,
     is_zero_number (field d "interval" VNone) = true →
     price_value (field d "price" (VStr UNKNOWN_PRICE)) = Ok pv →
     webhook_listener WS_ENABLED tbl (Ok (VDict d)) = answer pv VNone) ∧
  price_value (VStr (str "0")) = Ok (VFloat (fzero false)).
Proof.
  intros Hticker answer. subst answer. cbn beta.
  split; [| split; [| by vm_compute]].
  - intros iv Hprice Hinterval.
    apply webhook_listener_ok; [done | by apply price_value_zero | done].
  - intros pv Hinterval Hprice.
    apply webhook_listener_ok; [done | done | by apply interval_value_zero].
Qed.
End WebhookTheorems.

Lemma webhook_end_to_end_witness :
  _default_ticker_mapping !! str "GC" = Some (VStr (str "MGC")) ∧
  ∃ signal_data,
    webhook_listener (H := ascii_db) true _default_ticker_mapping
      (json_loads request_gc)
      = (Response 200 success_body, Some signal_data) ∧
    signal_data
      = VDict [(str "Ticker", VStr (str "MGC")); (str "Action", VStr (str "buy"));
               (str "Price", VFloat f_1950_5); (str "Interval", VInt 10)] ∧
    json_loads (jstr "{'Ticker':'MGC','Action':'buy','Price':1950.5,'Interval':10}")
      = Ok signal_data ∧
    json_dumps signal_data
      = jstr "{'Ticker': 'MGC', 'Action': 'buy', 'Price': 1950.5, 'Interval': 10}" ∧
    json_loads (jstr "{'status':'success','message':'Signal received'}")
      = Ok success_body.
Proof.
  split; [reflexivity |].
  apply (@webhook_end_to_end ascii_db _default_ticker_mapping).
  reflexivity.
Defined.

(* The request of the specification with the price "abc": HTTP 200, and
   null for the price and for the interval that is not there. *)
Lemma unreadable_field_is_null_witness :
  webhook_listener (H := ascii_db) true _default_ticker_mapping
    (json_loads request_abc)
  = (Response 200 success_body,
     Some (make_signal (VStr (str "ES")) (VStr (str "sell")) VNone VNone)).
Proof.
  assert (Hbody : json_loads request_abc =
            Ok (VDict [(str "ticker", VStr (str "ES"));
                       (str "action", VStr (str "sell"));
                       (str "price", VStr (str "abc"))]))
    by (vm_compute; reflexivity).
  rewrite Hbody.
  apply (@unreadable_field_is_null ascii_db true _default_ticker_mapping
           [(str "ticker", VStr (str "ES")); (str "action", VStr (str "sell"));
            (str "price", VStr (str "abc"))] (VStr (str "ES"))).
  - reflexivity.
  - reflexivity.
  - reflexivity.
Defined.

(* The claim C8 as it stands fails on a price that is the JSON boolean
   true: it is not a number, and the payload carries 1.0 for it (and 1 for
   an interval true), not null. *)
Lemma price_true_is_not_null :
  ∃ d signal_data,
    json_loads request_true = Ok (VDict d) ∧
    dict_lookup d (str "price") = Some (VBool true) ∧
    dict_lookup d (str "interval") = Some (VBool true) ∧
    webhook_listener (H := ascii_db) true _default_ticker_mapping
      (json_loads request_true)
      = (Response 200 success_body, Some signal_data) ∧
    signal_field signal_data "Price" = Some (VFloat f_1) ∧
    signal_field signal_data "Interval" = Some (VInt 1) ∧
    signal_field signal_data "Price" ≠ Some VNone ∧
    signal_field signal_data "Interval" ≠ Some VNone.
Proof.
  exists [(str "ticker", VStr (str "ES")); (str "action", VStr (str "sell"));
          (str "price", VBool true); (str "interval", VBool true)].
  exists (make_signal (VStr (str "ES")) (VStr (str "sell"))
            (VFloat f_1) (VInt 1)).
  repeat split; try (vm_compute; reflexivity); vm_compute; discriminate.
Qed.

(* Price the int 0 and interval the float 0.0: both are sent on as null. *)
Lemma zero_number_is_null_witness :
  webhook_listener (H := ascii_db) true _default_ticker_mapping
    (json_loads request_zero)
  = (Response 200 success_body,
     Some (make_signal (VStr (str "ES")) (VStr (str "buy")) VNone VNone)).
Proof.
  assert (Hbody : json_loads request_zero =
            Ok (VDict [(str "ticker", VStr (str "ES"));
                       (str "action", VStr (str "buy"));
                       (str "price", VInt 0);
                       (str "interval", VFloat (fzero false))]))
    by (vm_compute; reflexivity).
  rewrite Hbody.
  apply (proj1 (@zero_number_is_null ascii_db true _default_ticker_mapping
           [(str "ticker", VStr (str "ES")); (str "action", VStr (str "buy"));
            (str "price", VInt 0); (str "interval", VFloat (fzero false))]
           (VStr (str "ES")) eq_refl)).
  - reflexivity.
  - reflexivity.
Defined.

(* The claim C10 as it stands fails on the price "0": the str is not falsy,
   and the payload carries 0.0 for it, not null. *)
Lemma price_zero_string_is_not_null :
  ∃ d signal_data,
    json_loads request_zero_str = Ok (VDict d) ∧
    dict_lookup d (str "price") = Some (VStr (str "0")) ∧
    webhook_listener (H := ascii_db) true _default_ticker_mapping
      (json_loads request_zero_str)
      = (Response 200 success_body, Some signal_data) ∧
    signal_field signal_data "Price" = Some (VFloat (fzero false)) ∧
    signal_field signal_data "Price" ≠ Some VNone ∧
    signal_field signal_data "Interval" = Some VNone.
Proof.
  exists [(str "ticker", VStr (str "ES")); (str "action", VStr (str "buy"));
          (str "price", VStr (str "0")); (str "interval", VInt 0)].
  exists (make_signal (VStr (str "ES")) (VStr (str "buy"))
            (VFloat (fzero false)) VNone).
  repeat split; try (vm_compute; reflexivity); vm_compute; discriminate.
Qed.

(* --------------------------------------------------------------------- *)
(* 22. webhook_listener: which requests are turned down, and the shape   *)
(*     of the payload                                                    *)
(* --------------------------------------------------------------------- *)

Section WebhookOutcomes.
Context `{UnicodeDB}.

Lemma float_of_int_small (z : Z) :
  z = 0 ∨ z = 1 → is_ok (float_of_int z) = true.
Proof. by intros [-> | ->]. Qed.

(* price_value raises exactly on an int that is out of range. *)
Lemma price_value_is_ok (v : pyval) :
  is_ok (price_value v) = negb (overflowing_price v).
Proof.
  unfold price_value, overflowing_price.
  destruct v as [| [] | z | f | s | l | d]; try done.
  - cbn. destruct (z =? 0) eqn:Hz; cbn.
    + apply Z.eqb_eq in Hz as ->. vm_compute. reflexivity.
    + unfold float_of_int. by destruct (round_rat _ _ _).
  - destruct f as [neg m e | neg |]; cbn; [by destruct (m =? 0) | done | done].
  - destruct (truthy (VStr s) && negb (eq_str (VStr s) UNKNOWN_PRICE)); [| done].
    cbn. unfold float_of_str. by destruct (parse_float_ascii _).
  - destruct (truthy (VList l) && _); done.
  - destruct (truthy (VDict d) && _); done.
Qed.

(* interval_value raises exactly on an infinite float. *)
Lemma interval_value_is_ok (v : pyval) :
  is_ok (interval_value v) = negb (infinite_interval v).
Proof.
  unfold interval_value, infinite_interval.
  destruct v as [| [] | z | f | s | l | d]; try done.
  - cbn. by destruct (z =? 0).
  - destruct f as [neg m e | neg |]; cbn; [by destruct (m =? 0) | done | done].
  - destruct (truthy (VStr s)); [| done].
    cbn. unfold int_of_str, int_of_literal.
    destruct (int_literal _) as [[neg ds] |]; [| done].
    by case_bool_decide.
  - by destruct (truthy (VList l)).
  - by destruct (truthy (VDict d)).
Qed.

(* map_ticker raises exactly on a truthy value that is not a str. *)
Lemma map_ticker_is_ok (tbl : ticker_table) (v : pyval) :
  is_ok (map_ticker tbl v) = negb (unmappable_ticker v).
Proof.
  unfold map_ticker, unmappable_ticker.
  destruct v as [| [] | z | f | s | l | d]; try done; cbn.
  - by destruct (z =? 0).
  - destruct f as [neg m e | neg |]; [by destruct (m =? 0) | done | done].
  - destruct (bool_decide (s ≠ [])); cbn; [| done].
    by destruct (bool_decide (s = UNKNOWN_TICKER)).
  - by destruct (bool_decide (l ≠ [])).
  - by destruct (bool_decide (d ≠ [])).
Qed.

(* build_signal on a request object, in terms of the three conversions. *)
Lemma build_signal_object (tbl : ticker_table) (d : list (pystr * pyval)) :
  build_signal tbl (Ok (VDict d)) =
    pv ← price_value (field d "price" (VStr UNKNOWN_PRICE));
    iv ← interval_value (field d "interval" VNone);
    mapped ← map_ticker tbl (field d "ticker" (VStr UNKNOWN_TICKER));
    Ok (make_signal mapped (field d "action" (VStr NO_ACTION)) pv iv).
Proof. reflexivity. Qed.

Lemma build_signal_is_ok (tbl : ticker_table) (d : list (pystr * pyval)) :
  is_ok (build_signal tbl (Ok (VDict d))) = negb (rejected_fields d).
Proof.
  rewrite build_signal_object. unfold rejected_fields.
  pose proof (price_value_is_ok (field d "price" (VStr UNKNOWN_PRICE))) as Hp.
  pose proof (interval_value_is_ok (field d "interval" VNone)) as Hi.
  pose proof (map_ticker_is_ok tbl (field d "ticker" (VStr UNKNOWN_TICKER))) as Ht.
  destruct (price_value _) as [pv | e1]; cbn in *.
  2: { by destruct (overflowing_price _). }
  destruct (overflowing_price _); [done |]. cbn.
  destruct (interval_value _) as [iv | e2]; cbn in *.
  2: { by destruct (infinite_interval _). }
  destruct (infinite_interval _); [done |]. cbn.
  destruct (map_ticker _ _) as [mapped | e3]; cbn in *;
    by destruct (unmappable_ticker _).
Qed.

(** X1. The handler never lets an exception out: it answers 200 or 400.  A
    request whose body Flask cannot take, or whose JSON value is not an
    object, is answered 400; a request object is answered 400 exactly
    when its price is an int out of the range of floats, its interval is
    an infinite float, or its ticker is truthy and not a str.  Whenever
    the answer is 400, nothing is handed to the broadcast. *)
Theorem webhook_listener_rejects_exactly (WS_ENABLED : bool)
    (tbl : ticker_table) (request_json : result pyval) :
  let '(resp, queued) := webhook_listener WS_ENABLED tbl request_json in
  (status resp = 200 ∨ status resp = 400) ∧
  (status resp = 400 → queued = None) ∧
  (status resp = 200 → body resp = success_body) ∧
  (status resp = 400 ↔
     match request_json with
     | Raise _ => True
     | Ok (VDict d) => rejected_fields d = true
     | Ok _ => True
     end).
Proof.
  unfold webhook_listener.
  destruct request_json as [data | e]; [| cbn; intuition (auto; done)].
  destruct data as [| b | z | f | s | l | d];
    try (cbn; intuition (auto; done)).
  pose proof (build_signal_is_ok tbl d) as Hok.
  destruct (build_signal tbl (Ok (VDict d))) as [sig | e]; cbn in *.
  - destruct (rejected_fields d); [done |]. intuition (auto; done).
  - destruct (rejected_fields d); [| done]. intuition (auto; done).
Qed.
End WebhookOutcomes.

Lemma webhook_listener_rejects_exactly_witness :
  status (webhook_listener (H := ascii_db) true _default_ticker_mapping
            (json_loads request_huge_interval)).1 = 400 ∧
  status (webhook_listener (H := ascii_db) true _default_ticker_mapping
            (json_loads request_number_ticker)).1 = 400.
Proof.
  split.
  - assert (Hbody : json_loads request_huge_interval =
              Ok (VDict [(str "ticker", VStr (str "ES"));
                         (str "action", VStr (str "buy"));
                         (str "price", VInt 1);
                         (str "interval", VFloat (FInf false))]))
      by (vm_compute; reflexivity).
    rewrite Hbody.
    pose proof (@webhook_listener_rejects_exactly ascii_db true
                  _default_ticker_mapping
                  (Ok (VDict [(str "ticker", VStr (str "ES"));
                              (str "action", VStr (str "buy"));
                              (str "price", VInt 1);
                              (str "interval", VFloat (FInf false))]))) as Hx.
    destruct (webhook_listener _ _ _) as [resp queued]. cbn.
    apply Hx. vm_compute. reflexivity.
  - assert (Hbody : json_loads request_number_ticker =
              Ok (VDict [(str "ticker", VInt 5);
                         (str "action", VStr (str "buy"))]))
      by (vm_compute; reflexivity).
    rewrite Hbody.
    pose proof (@webhook_listener_rejects_exactly ascii_db true
                  _default_ticker_mapping
                  (Ok (VDict [(str "ticker", VInt 5);
                              (str "action", VStr (str "buy"))]))) as Hx.
    destruct (webhook_listener _ _ _) as [resp queued]. cbn.
    apply Hx. vm_compute. reflexivity.
Defined.

Section WebhookPayload.
Context `{UnicodeDB}.

Lemma price_value_shape (v pv : pyval) :
  price_value v = Ok pv → pv = VNone ∨ ∃ f, pv = VFloat f.
Proof.
  unfold price_value.
  destruct (truthy v && negb (eq_str v UNKNOWN_PRICE)); [| intros [= <-]; by left].
  destruct (is_int_or_float v); [| destruct (is_str v)].
  - destruct (py_float v) as [f | e]; cbn [mbind result_bind try_except].
    + intros [= <-]. right. by exists f.
    + destruct (existsb (exc_subclass (exc_cls e)) [ExcValueError; ExcTypeError]);
        [intros [= <-]; by left | done].
  - destruct (py_float v) as [f | e]; cbn [mbind result_bind try_except].
    + intros [= <-]. right. by exists f.
    + destruct (existsb (exc_subclass (exc_cls e)) [ExcValueError; ExcTypeError]);
        [intros [= <-]; by left | done].
  - cbn. intros [= <-]. by left.
Qed.

Lemma interval_value_shape (v iv : pyval) :
  interval_value v = Ok iv → iv = VNone ∨ ∃ z, iv = VInt z.
Proof.
  unfold interval_value.
  destruct (truthy v); [| intros [= <-]; by left].
  destruct (is_int_or_float v); [| destruct (is_str v)].
  - destruct (py_int v) as [z | e]; cbn [mbind result_bind try_except].
    + intros [= <-]. right. by exists z.
    + destruct (existsb (exc_subclass (exc_cls e)) [ExcValueError; ExcTypeError]);
        [intros [= <-]; by left | done].
  - destruct (py_int v) as [z | e]; cbn [mbind result_bind try_except].
    + intros [= <-]. right. by exists z.
    + destruct (existsb (exc_subclass (exc_cls e)) [ExcValueError; ExcTypeError]);
        [intros [= <-]; by left | done].
  - cbn. intros [= <-]. by left.
Qed.

(** X2. Whatever is handed to the broadcast comes from a request object
    that was answered 200, and is a dict with exactly the keys Ticker,
    Action, Price, Interval in this order: the ticker as map_ticker gave
    it, the action of the request as it came (or the default), a price
    that is None or a float, and an interval that is None or an int. *)
Theorem webhook_payload_shape (tbl : ticker_table)
    (request_json : result pyval) (resp : response) (signal_data : pyval) :
  webhook_listener true tbl request_json = (resp, Some signal_data) →
  ∃ d mapped pv iv,
    request_json = Ok (VDict d) ∧
    resp = Response 200 success_body ∧
    signal_data = VDict [(str "Ticker", mapped);
                         (str "Action", field d "action" (VStr NO_ACTION));
                         (str "Price", pv); (str "Interval", iv)] ∧
    map_ticker tbl (field d "ticker" (VStr UNKNOWN_TICKER)) = Ok mapped ∧
    (pv = VNone ∨ ∃ f, pv = VFloat f) ∧
    (iv = VNone ∨ ∃ z, iv = VInt z).
Proof.
  unfold webhook_listener.
  destruct request_json as [data | e]; [| done].
  destruct data as [| b | z | f | s | l | d]; try done.
  rewrite build_signal_object.
  destruct (price_value _) as [pv | e1] eqn:Hp; [| done].
  destruct (interval_value _) as [iv | e2] eqn:Hi; [| done].
  destruct (map_ticker _ _) as [mapped | e3] eqn:Ht; [| done].
  cbn. intros [= <- <-].
  exists d, mapped, pv, iv. repeat split; try done.
  - by apply price_value_shape in Hp.
  - by apply interval_value_shape in Hi.
Qed.

(** X3. A request object without the four fields is answered 200 and sent
    on with the handler's defaults: the ticker '未知品种' (never mapped,
    whatever the table holds), the action '无动作', and null for price and
    interval.  Fields that are present and null are not defaulted: all
    four are sent on as null. *)
Theorem webhook_missing_and_null_fields (WS_ENABLED : bool)
    (tbl : ticker_table) (d : list (pystr * pyval)) :
  let answer (signal_data : pyval) :=
    (Response 200 success_body,
     if WS_ENABLED then Some signal_data else None) in
  (dict_lookup d (str "ticker") = None →
   dict_lookup d (str "action") = None →
   dict_lookup d (str "price") = None →
   dict_lookup d (str "interval") = None →
   webhook_listener WS_ENABLED tbl (Ok (VDict d))
     = answer (make_signal (VStr UNKNOWN_TICKER) (VStr NO_ACTION) VNone VNone)) ∧
  (dict_lookup d (str "ticker") = Some VNone →
   dict_lookup d (str "action") = Some VNone →
   dict_lookup d (str "price") = Some VNone →
   dict_lookup d (str "interval") = Some VNone →
   webhook_listener WS_ENABLED tbl (Ok (VDict d))
     = answer (make_signal VNone VNone VNone VNone)).
Proof.
  cbn zeta. split; intros Ht Ha Hp Hi.
  - rewrite (webhook_listener_ok WS_ENABLED tbl d (VStr UNKNOWN_TICKER) VNone VNone);
      unfold field; rewrite ?Ht, ?Ha, ?Hp, ?Hi; done.
  - rewrite (webhook_listener_ok WS_ENABLED tbl d VNone VNone VNone);
      unfold field; rewrite ?Ht, ?Ha, ?Hp, ?Hi; done.
Qed.

Lemma float_of_str_empty : is_ok (float_of_str []) = false.
Proof. reflexivity. Qed.

Lemma int_of_str_empty : is_ok (int_of_str []) = false.
Proof. reflexivity. Qed.

(** X4. Every str that float() accepts is converted as a price, the str
    for zero and the strs for infinities and NaN included (only the
    sentinel '未知价格' is kept out), and every str that int() accepts is
    converted as an interval, zero included: the test for falsy values
    drops the empty str only. *)
Theorem string_fields_are_converted (s : pystr) :
  (∀ f, s ≠ UNKNOWN_PRICE → float_of_str s = Ok f →
        price_value (VStr s) = Ok (VFloat f)) ∧
  (∀ z, int_of_str s = Ok z → interval_value (VStr s) = Ok (VInt z)).
Proof.
  split.
  - intros f Hs Hf. unfold price_value.
    destruct s as [| c s]; [done |].
    cbn. rewrite (bool_decide_eq_false_2 _ Hs). cbn. by rewrite Hf.
  - intros z Hz. unfold interval_value.
    destruct s as [| c s]; [done |].
    cbn. by rewrite Hz.
Qed.
End WebhookPayload.

(* --------------------------------------------------------------------- *)
(* 23. map_ticker on other spellings and on values that are not strs     *)
(* --------------------------------------------------------------------- *)

Section MapTickerMore.
Context `{UnicodeDB}.

(** X5. The lookup is by the uppercased ticker: two non-empty tickers with
    the same uppercase, neither the sentinel, get the same mapped value
    when that uppercase is a key; when it is not, each comes back in its
    own spelling. *)
Theorem map_ticker_case_insensitive (tbl : ticker_table) (t1 t2 : pystr) :
  t1 ≠ [] → t2 ≠ [] → t1 ≠ UNKNOWN_TICKER → t2 ≠ UNKNOWN_TICKER →
  upper t1 = upper t2 →
  match tbl !! upper t1 with
  | Some mapped =>
      map_ticker tbl (VStr t1) = Ok mapped ∧ map_ticker tbl (VStr t2) = Ok mapped
  | None =>
      map_ticker tbl (VStr t1) = Ok (VStr t1) ∧
      map_ticker tbl (VStr t2) = Ok (VStr t2)
  end.
Proof.
  intros H1 H2 Hs1 Hs2 Hup.
  rewrite (map_ticker_str tbl t1), (map_ticker_str tbl t2) by done.
  rewrite <- Hup. by destruct (tbl !! upper t1).
Qed.

(** X6. A ticker that is not a str is never looked up: a falsy one (null,
    false, 0, 0.0, an empty list or object) comes back as it is, and a
    truthy one makes map_ticker raise AttributeError, for it has no
    upper(). *)
Theorem map_ticker_non_str (tbl : ticker_table) (v : pyval) :
  is_str v = false →
  if truthy v
  then ∃ e, map_ticker tbl v = Raise e ∧ exc_cls e = ExcAttributeError
  else map_ticker tbl v = Ok v.
Proof.
  intros Hv. unfold map_ticker.
  destruct v as [| [] | z | f | s | l | d]; try done; cbn.
  - by eexists.
  - destruct (z =? 0); cbn; [done | by eexists].
  - destruct f as [neg m e | neg |]; cbn;
      [destruct (m =? 0); cbn; [done | by eexists] | by eexists | by eexists].
  - destruct (bool_decide (l ≠ [])); cbn; [by eexists | done].
  - destruct (bool_decide (d ≠ [])); cbn; [by eexists | done].
Qed.
End MapTickerMore.

Lemma map_ticker_case_insensitive_witness :
  map_ticker (H := ascii_db) _default_ticker_mapping (VStr (str "Gc"))
    = Ok (VStr (str "MGC")) ∧
  map_ticker (H := ascii_db) _default_ticker_mapping (VStr (str "gC"))
    = Ok (VStr (str "MGC")).
Proof.
  apply (@map_ticker_case_insensitive ascii_db _default_ticker_mapping
           (str "Gc") (str "gC")); (discriminate || reflexivity).
Defined.

Lemma map_ticker_non_str_witness :
  (∃ e, map_ticker (H := ascii_db) _default_ticker_mapping (VInt 5) = Raise e ∧
        exc_cls e = ExcAttributeError) ∧
  map_ticker (H := ascii_db) _default_ticker_mapping (VList []) = Ok (VList []).
Proof.
  split.
  - apply (@map_ticker_non_str ascii_db _default_ticker_mapping (VInt 5)).
    reflexivity.
  - apply (@map_ticker_non_str ascii_db _default_ticker_mapping (VList [])).
    reflexivity.
Defined.

(* --------------------------------------------------------------------- *)
(* 24. load_ticker_mapping: failures, overriding, what is always there   *)
(* --------------------------------------------------------------------- *)

Section LoaderMore.
Context `{UnicodeDB}.

(* The table that a run leaves, by its file layer and the environment. *)
Lemma loaded_table_spec (file : config_file) (env : pystr) :
  loaded_table (load_ticker_mapping file env) =
    let base := file_layer file ∪ _default_ticker_mapping in
    if bool_decide (env ≠ []) then
      try_except (env_mapping ← json_loads env; dict_update base env_mapping)
        [ExcJSONDecodeError] (λ _, Ok base)
    else Ok base.
Proof.
  rewrite load_ticker_mapping_after_file. cbn zeta.
  case_bool_decide; [| done].
  destruct (json_loads env) as [v | e]; cbn [mbind result_bind try_except].
  - destruct (dict_update _ v) as [updated | e]; cbn; [done | by case_match].
  - cbn. by case_match.
Qed.

Lemma loaded_table_raise (r : result (ticker_table * list log_record)) (e : pyexc) :
  loaded_table r = Raise e → r = Raise e.
Proof. destruct r as [[tbl log] |]; [done | by intros [= ->]]. Qed.

Lemma loaded_table_ok (r : result (ticker_table * list log_record))
    (tbl : ticker_table) :
  loaded_table r = Ok tbl ↔ ∃ log, r = Ok (tbl, log).
Proof.
  destruct r as [[tbl' log] |]; cbn; split.
  - intros [= ->]. by exists log.
  - by intros (log' & [= -> _]).
  - done.
  - by intros (log' & ?).
Qed.

(** X7. If reading the mapping file fails, nothing of the file is used,
    not even the lines read before the failure: the loader leaves the
    table it would leave without a file (and the same exception, if the
    environment value makes it raise), and an error is logged. *)
Theorem load_read_failure_discards_file (lines : list pystr) (e : pyexc)
    (env : pystr) :
  loaded_table (load_ticker_mapping (FileLines lines (Some e)) env)
    = loaded_table (load_ticker_mapping NoFile env) ∧
  ∀ tbl log,
    load_ticker_mapping (FileLines lines (Some e)) env = Ok (tbl, log) →
    (ERROR, FileReadFailed e) ∈ log.
Proof.
  split; [by rewrite !loaded_table_spec |].
  intros tbl log. rewrite load_ticker_mapping_after_file. cbn zeta.
  cbn [file_phase_log]. intros Hload.
  assert (∃ rest,
            log = (omap line_warning (enumerate_from_1 lines)
                   ++ [(ERROR, FileReadFailed e)]) ++ rest) as [rest ->].
  { revert Hload. case_bool_decide; cbn [mbind result_bind].
    - destruct (json_loads env) as [v | e'];
        cbn [mbind result_bind try_except].
      + destruct (dict_update _ v) as [updated | e''];
          cbn [mbind result_bind try_except].
        * intros [= _ <-]. eexists. rewrite <- (assoc_L (++)). reflexivity.
        * case_match; cbn; [| done].
          intros [= _ <-]. eexists. rewrite <- (assoc_L (++)). reflexivity.
      + case_match; cbn; [| done].
        intros [= _ <-]. eexists. rewrite <- (assoc_L (++)). reflexivity.
    - intros [= _ <-]. eexists. reflexivity. }
  set_solver.
Qed.

(** X8. A TICKER_MAPPING value that is valid JSON but is null, a boolean or
    a number is not ignored like a malformed one: dict.update raises
    TypeError, the handler for JSONDecodeError does not catch it, and
    load_ticker_mapping raises, whatever the mapping file holds. *)
Theorem load_scalar_env_raises (file : config_file) (env : pystr) (v : pyval) :
  json_loads env = Ok v →
  match v with
  | VNone | VBool _ | VInt _ | VFloat _ => True
  | _ => False
  end →
  ∃ e, load_ticker_mapping file env = Raise e ∧ exc_cls e = ExcTypeError.
Proof.
  intros Hjson Hv.
  assert (Henv : env ≠ []).
  { intros ->. by rewrite json_loads_empty in Hjson. }
  pose proof (loaded_table_spec file env) as Hspec. cbn zeta in Hspec.
  rewrite bool_decide_eq_true_2, Hjson in Hspec by done.
  destruct v; try done; cbn in Hspec;
    (eexists; split; [by apply loaded_table_raise | done]).
Qed.

(** X9. A later line of the file overrides every earlier line with the
    same uppercased source, wherever the lines stand in the file, and the
    loader and map_ticker fit together: when the environment value is
    unset, the target of the last well-formed line for a source (no line
    after it gives an entry for that source) is what the table holds for
    the source, and what map_ticker returns for every ticker, in any
    spelling, whose uppercase is that source. *)
Theorem load_last_line_wins (pre post : list pystr) (line source : pystr)
    (target : pyval) :
  line_entry line = Some (source, target) →
  (∀ later t, later ∈ post → line_entry later ≠ Some (source, t)) →
  ∃ tbl log,
    load_ticker_mapping (FileLines (pre ++ line :: post) None) []
      = Ok (tbl, log) ∧
    tbl !! source = Some target ∧
    ∀ t, t ≠ [] → t ≠ UNKNOWN_TICKER → upper t = source →
         map_ticker tbl (VStr t) = Ok target.
Proof.
  intros Hentry Hpost.
  pose proof (loaded_table_spec (FileLines (pre ++ line :: post) None) [])
    as Hspec.
  cbn zeta in Hspec. rewrite bool_decide_eq_false_2 in Hspec by tauto.
  apply loaded_table_ok in Hspec as [log Hload].
  eexists _, log. split; [exact Hload |].
  assert (Hlookup : (file_layer (FileLines (pre ++ line :: post) None)
                     ∪ _default_ticker_mapping) !! source = Some target).
  { cbn [file_layer]. apply lookup_union_Some_l.
    by apply file_entries_last. }
  split; [done |].
  intros t Ht Hs <-. rewrite map_ticker_str by done. by rewrite Hlookup.
Qed.

Lemma update_items_keeps (items : list pyval) (tbl tbl' : ticker_table)
    (k : pystr) :
  update_items tbl items = Ok tbl' → is_Some (tbl !! k) → is_Some (tbl' !! k).
Proof.
  revert tbl. induction items as [| item items IH]; intros tbl.
  - by intros [= ->].
  - cbn [update_items]. destruct (update_item item) as [[[s |] v] | e]; cbn.
    + intros Hrest Hk. apply (IH _ Hrest).
      rewrite lookup_insert. case_decide; [by eexists | done].
    + apply IH.
    + done.
Qed.

Lemma dict_update_keeps (tbl tbl' : ticker_table) (other : pyval) (k : pystr) :
  dict_update tbl other = Ok tbl' → is_Some (tbl !! k) → is_Some (tbl' !! k).
Proof.
  destruct other as [| b | z | f | s | items | d]; try done.
  - destruct s; [by intros [= ->] | done].
  - apply update_items_keeps.
  - rewrite dict_update_dict. intros [= <-] Hk.
    apply lookup_union_is_Some. by right.
Qed.

(** X10. Loading only adds and overrides: whenever load_ticker_mapping
    returns, whatever the file and the environment value, every key of the
    built-in defaults is still mapped; GC in particular always has a
    value. *)
Theorem load_keeps_default_keys (file : config_file) (env : pystr)
    (tbl : ticker_table) (log : list log_record) :
  load_ticker_mapping file env = Ok (tbl, log) →
  (∀ k, is_Some (_default_ticker_mapping !! k) → is_Some (tbl !! k)) ∧
  is_Some (tbl !! str "GC").
Proof.
  intros Hload.
  assert (Hkeys : ∀ k, is_Some (_default_ticker_mapping !! k) →
                       is_Some (tbl !! k)).
  { intros k Hk.
    assert (Hbase : is_Some ((file_layer file ∪ _default_ticker_mapping) !! k)).
    { apply lookup_union_is_Some. by right. }
    assert (Htbl : loaded_table (load_ticker_mapping file env) = Ok tbl)
      by (apply loaded_table_ok; eauto).
    rewrite loaded_table_spec in Htbl. cbn zeta in Htbl.
    case_bool_decide; [| by injection Htbl as <-].
    destruct (json_loads env) as [v | e];
      cbn [mbind result_bind try_except] in Htbl.
    - destruct (dict_update _ v) as [tbl'' | e] eqn:Hupd;
        cbn [mbind result_bind try_except] in Htbl.
      + injection Htbl as <-. by apply (dict_update_keeps _ _ _ _ Hupd).
      + revert Htbl. case_match; [by intros [= <-] | done].
    - revert Htbl. case_match; [by intros [= <-] | done]. }
  split; [done |]. apply Hkeys. by eexists.
Qed.
End LoaderMore.

(* --------------------------------------------------------------------- *)
(* 25. What the mapping file can put into the table                      *)
(* --------------------------------------------------------------------- *)

Lemma lstrip_suffix (s : pystr) : ∃ sp, s = sp ++ lstrip s.
Proof.
  induction s as [| c s [sp IH]]; [by exists [] |].
  cbn. destruct (isspace c).
  - exists (c :: sp). cbn. by f_equal.
  - by exists [].
Qed.

Lemma lstrip_starts_clean (s : pystr) : starts_clean (lstrip s).
Proof.
  induction s as [| c s IH]; [done |].
  cbn. by destruct (isspace c) eqn:Hc.
Qed.

Lemma lstrip_of_clean (s : pystr) : starts_clean s → lstrip s = s.
Proof. destruct s as [| c s]; [done |]. cbn. by intros ->. Qed.

Lemma rstrip_starts_clean (s : pystr) : starts_clean s → starts_clean (rstrip s).
Proof.
  intros Hs. unfold rstrip.
  destruct (lstrip_suffix (reverse s)) as [sp Hsp].
  destruct (reverse (lstrip (reverse s))) as [| c r] eqn:Hr; [done |].
  apply (f_equal reverse) in Hsp.
  rewrite reverse_involutive, reverse_app, Hr in Hsp.
  rewrite Hsp in Hs. done.
Qed.

Lemma rstrip_idemp (s : pystr) : rstrip (rstrip s) = rstrip s.
Proof.
  unfold rstrip. rewrite reverse_involutive.
  by rewrite (lstrip_of_clean _ (lstrip_starts_clean _)).
Qed.

(* str.strip() leaves nothing to strip. *)
Lemma strip_idemp (s : pystr) : strip (strip s) = strip s.
Proof.
  unfold strip.
  rewrite (lstrip_of_clean (rstrip (lstrip s))).
  - apply rstrip_idemp.
  - apply rstrip_starts_clean, lstrip_starts_clean.
Qed.

Section FileEntries.
Context `{UnicodeDB}.

Lemma line_entry_clean (line source : pystr) (target : pyval) :
  line_entry line = Some (source, target) →
  source ≠ [] ∧ ∃ t, target = VStr t ∧ t ≠ [] ∧ strip t = t.
Proof.
  unfold line_entry.
  destruct (blank_or_comment line); [done |].
  case_bool_decide; [done |].
  case_bool_decide as Hsrc; [done |].
  case_bool_decide as Htgt; [done |].
  cbn. intros [= <- <-]. split; [done |].
  eexists. split; [done |]. split; [done |]. apply strip_idemp.
Qed.

(** X11. With the environment value unset, whatever lines the mapping file
    holds, no key of the loaded table is empty, and every value is a
    non-empty str without whitespace at either end. *)
Theorem loaded_entries_are_clean (file : config_file) (tbl : ticker_table)
    (log : list log_record) (k : pystr) (v : pyval) :
  load_ticker_mapping file [] = Ok (tbl, log) →
  tbl !! k = Some v →
  k ≠ [] ∧ ∃ t, v = VStr t ∧ t ≠ [] ∧ strip t = t.
Proof.
  intros Hload Hk.
  assert (Htbl : loaded_table (load_ticker_mapping file []) = Ok tbl)
    by (apply loaded_table_ok; eauto).
  rewrite loaded_table_spec in Htbl. cbn zeta in Htbl.
  rewrite bool_decide_eq_false_2 in Htbl by tauto.
  injection Htbl as <-.
  apply lookup_union_Some_raw in Hk as [Hfile | [_ Hdefault]].
  - destruct file as [| lines [e |]]; cbn [file_layer] in Hfile; try done.
    unfold file_entries in Hfile.
    apply elem_of_list_to_map_2, elem_of_reverse, list_elem_of_omap in Hfile
      as (line & _ & Hentry).
    by apply line_entry_clean in Hentry.
  - unfold _default_ticker_mapping in Hdefault.
    apply lookup_singleton_Some in Hdefault as [<- <-].
    split; [done |]. by exists (str "MGC").
Qed.
End FileEntries.

(* --------------------------------------------------------------------- *)
(* 26. Broadcasts one after the other, and the life of a connection      *)
(* --------------------------------------------------------------------- *)

Lemma count_in_NoDup (c : client) (l : list client) :
  NoDup l →
  length (filter (λ x, x = c) l) = if decide (c ∈ l) then 1%nat else 0%nat.
Proof.
  induction 1 as [| x l Hx _ IH]; [done |].
  rewrite filter_cons. destruct (decide (x = c)) as [-> | Hne].
  - cbn. rewrite IH. rewrite (decide_False (P := c ∈ l)) by done.
    by rewrite decide_True by left.
  - rewrite IH. destruct (decide (c ∈ l)) as [Hin | Hin].
    + by rewrite decide_True by (by right).
    + rewrite decide_False; [done |].
      intros [? | ?]%elem_of_cons; congruence.
Qed.

Lemma count_events_to (c : client) (evs : list send_event) :
  length (filter (λ ev, sent_to ev = c) evs)
    = length (filter (λ x, x = c) (sent_to <$> evs)).
Proof.
  induction evs as [| ev evs IH]; [done |].
  rewrite fmap_cons, !filter_cons.
  destruct (decide (sent_to ev = c)); cbn; by rewrite IH.
Qed.

(** X12. One broadcast sends to every registered handle exactly once and to
    no other handle: among the sends it makes, the number of those that go
    to a given handle is one if the handle is registered and zero if it is
    not. *)
Theorem broadcast_sends_exactly_once {Net : Type}
    (send : client → pystr → Net → result unit * Net)
    (signal_data : pyval) (st : ws_state Net) (c : client) :
  ∃ st' evs,
    broadcast_signal send true signal_data st = Ok st' ∧
    io_trace st' = io_trace st ++ evs ∧
    length (filter (λ ev, sent_to ev = c) evs)
      = (if decide (c ∈ _ws_clients st) then 1%nat else 0%nat).
Proof.
  destruct (broadcast_signal_enabled send signal_data st)
    as (st' & evs & Hrun & Hsends & Htrace & _).
  destruct (sends_run_events send _ _ _ _ _ Hsends) as [Hto _].
  exists st', evs. split; [done |]. split; [done |].
  rewrite count_events_to, Hto, count_in_NoDup by apply NoDup_elements.
  destruct (decide (c ∈ _ws_clients st)) as [Hin | Hin].
  - by rewrite decide_True by (by apply elem_of_elements).
  - rewrite decide_False; [done |]. by rewrite elem_of_elements.
Qed.

(** X13. Two broadcasts one after the other: the second sends to exactly
    the handles that the first left in the registry, so a handle whose
    send failed in the first is not sent anything in the second, and the
    registry in the end is the first one minus the handles that failed
    in either. *)
Theorem broadcast_twice {Net : Type}
    (send : client → pystr → Net → result unit * Net)
    (first second : pyval) (st : ws_state Net) :
  ∃ st1 st2 evs1 evs2,
    broadcast_signal send true first st = Ok st1 ∧
    broadcast_signal send true second st1 = Ok st2 ∧
    io_trace st2 = io_trace st ++ evs1 ++ evs2 ∧
    sent_to <$> evs2 = elements (_ws_clients st ∖ failed_clients evs1) ∧
    (∀ c, c ∈ failed_clients evs1 → c ∉ sent_to <$> evs2) ∧
    _ws_clients st2
      = _ws_clients st ∖ (failed_clients evs1 ∪ failed_clients evs2).
Proof.
  destruct (broadcast_signal_enabled send first st)
    as (st1 & evs1 & Hrun1 & _ & Htrace1 & Hreg1).
  destruct (broadcast_signal_enabled send second st1)
    as (st2 & evs2 & Hrun2 & Hsends2 & Htrace2 & Hreg2).
  destruct (sends_run_events send _ _ _ _ _ Hsends2) as [Hto2 _].
  exists st1, st2, evs1, evs2.
  split; [done |]. split; [done |].
  split; [by rewrite Htrace2, Htrace1, (assoc_L (++)) |].
  split; [by rewrite Hto2, Hreg1 |].
  split.
  - intros c Hc. rewrite Hto2, elem_of_elements, Hreg1. set_solver.
  - rewrite Hreg2, Hreg1. set_solver.
Qed.

(** X14. A connection from its registration to its closure, with a
    broadcast in between: the handle is sent the signal, and after the
    closure it is out of the registry whether or not the broadcast had
    already removed it for a failed send; the closure discards, it never
    fails on a handle that is gone, and it touches no other handle. *)
Theorem connection_lifecycle {Net : Type}
    (send : client → pystr → Net → result unit * Net)
    (signal_data : pyval) (st : ws_state Net) (websocket : client) :
  ∃ st1 evs,
    broadcast_signal send true signal_data
      (register_client_connected websocket st) = Ok st1 ∧
    io_trace st1 = io_trace st ++ evs ∧
    (websocket ∈ sent_to <$> evs) ∧
    (websocket ∉ _ws_clients (register_client_closed websocket st1)) ∧
    _ws_clients (register_client_closed websocket st1)
      = (_ws_clients st ∖ failed_clients evs) ∖ {[websocket]} ∧
    register_client_closed websocket (register_client_closed websocket st1)
      = register_client_closed websocket st1.
Proof.
  destruct (broadcast_signal_enabled send signal_data
              (register_client_connected websocket st))
    as (st1 & evs & Hrun & Hsends & Htrace & Hreg).
  destruct (sends_run_events send _ _ _ _ _ Hsends) as [Hto _].
  exists st1, evs. split; [done |]. split; [done |].
  cbn in Hreg, Hto.
  split; [rewrite Hto, elem_of_elements; set_solver |].
  split; [cbn; set_solver |].
  split; [cbn; rewrite Hreg; set_solver |].
  unfold register_client_closed. cbn. f_equal. set_solver.
Qed.

(* --------------------------------------------------------------------- *)
(* 27. Requests when broadcasting is disabled, and after startup         *)
(* --------------------------------------------------------------------- *)

Lemma run_invariant (WS_ENABLED : bool) (P : Dispatch.world → Prop) :
  (∀ w a, P w → P (Dispatch.step WS_ENABLED w a)) →
  ∀ schedule w, P w → P (Dispatch.run WS_ENABLED schedule w).
Proof.
  intros Hstep schedule. unfold Dispatch.run.
  induction schedule as [| a schedule IH]; intros w Hw; [done |].
  cbn. apply IH. by apply Hstep.
Qed.

Lemma disabled_step (w : Dispatch.world) (a : Dispatch.actor) :
  Dispatch.threads w = [] ∧ Dispatch._broadcast_loop w = None ∧
  Dispatch._broadcast_loop_thread w = None ∧
  Forall skipped_pc (Dispatch.handlers w) →
  let w' := Dispatch.step false w a in
  Dispatch.threads w' = [] ∧ Dispatch._broadcast_loop w' = None ∧
  Dispatch._broadcast_loop_thread w' = None ∧
  Forall skipped_pc (Dispatch.handlers w').
Proof.
  intros (Hths & Hbl & Hblt & Hpcs).
  destruct w as [bl blt ths hs]. cbn in *. subst.
  destruct a as [i | t]; cbn; [| done].
  unfold Dispatch.step_handler. cbn.
  destruct (hs !! i) as [pc |] eqn:Hi; [| done].
  assert (Hpc : skipped_pc pc)
    by (eapply Forall_forall; [done | by eapply list_elem_of_lookup_2]).
  destruct pc as [| | | | | | | []]; try done; cbn.
  repeat split. by apply Forall_insert.
Qed.

(** X15. With broadcasting disabled, broadcast_signal_async does nothing,
    however many requests call it and however they are interleaved: no
    thread is ever created, no loop is ever assigned, and every call
    either has not begun or has returned at its first test. *)
Theorem disabled_requests_start_nothing (requests : nat)
    (schedule : list Dispatch.actor) :
  let w := Dispatch.run false schedule (Dispatch.initial requests) in
  Dispatch.threads w = [] ∧
  Dispatch._broadcast_loop w = None ∧
  Dispatch._broadcast_loop_thread w = None ∧
  Forall skipped_pc (Dispatch.handlers w).
Proof.
  apply (run_invariant false
           (λ w, Dispatch.threads w = [] ∧ Dispatch._broadcast_loop w = None ∧
                 Dispatch._broadcast_loop_thread w = None ∧
                 Forall skipped_pc (Dispatch.handlers w))).
  - intros w a. apply disabled_step.
  - repeat split. cbn. by apply Forall_replicate.
Qed.

Lemma served_step (w : Dispatch.world) (a : Dispatch.actor) :
  served_inv w → served_inv (Dispatch.step true w a).
Proof.
  intros ((s & Hths & Hs) & Hblt & Hbl & Hpcs).
  destruct w as [bl blt ths hs]. cbn in *. subst.
  destruct a as [i | t]; cbn.
  - unfold Dispatch.step_handler. cbn.
    destruct (hs !! i) as [pc |] eqn:Hi; [| by repeat split; eauto].
    assert (Hpc : served_pc pc)
      by (eapply Forall_forall; [done | by eapply list_elem_of_lookup_2]).
    destruct pc as [| | | | | | | [| [| l] | |]]; try done; cbn.
    + repeat split; eauto. by apply Forall_insert.
    + repeat split; eauto. apply Forall_insert; [done |].
      by destruct Hbl as [-> | ->].
    + unfold Dispatch.is_alive. cbn.
      repeat split; eauto. apply Forall_insert; [done |]. by destruct s.
    + repeat split; eauto. apply Forall_insert; [done |].
      destruct Hbl as [-> | ->]; [done |].
      unfold Dispatch.is_running. cbn. by destruct s.
    + repeat split; eauto.
    + repeat split; eauto.
  - unfold Dispatch.step_thread. cbn.
    destruct t as [| t]; cbn; [| by repeat split; eauto].
    destruct s; cbn; repeat split; eauto.
Qed.

(** X16. Once the main block has started the loop thread, no request starts
    another: however many requests call broadcast_signal_async and however
    they and the thread are interleaved, there is one thread, no call ends
    in an exception, and every call that has ended has submitted to that
    one loop or, the loop not yet running, has run the broadcast inline. *)
Theorem requests_after_startup (s : Dispatch.thread_state) (requests : nat)
    (schedule : list Dispatch.actor) :
  Dispatch.was_started s = true →
  let w := Dispatch.run true schedule (after_startup s requests) in
  Dispatch.started_threads w = 1%nat ∧
  length (Dispatch.threads w) = 1%nat ∧
  Forall served_pc (Dispatch.handlers w).
Proof.
  intros Hs. cbn zeta.
  assert (Hinv : served_inv (Dispatch.run true schedule (after_startup s requests))).
  { apply (run_invariant true served_inv); [apply served_step |].
    repeat split; cbn.
    - by exists s.
    - destruct s; auto.
    - by apply Forall_replicate. }
  destruct Hinv as ((s' & Hths & Hs') & _ & _ & Hpcs).
  unfold Dispatch.started_threads. rewrite Hths. cbn.
  rewrite decide_True by done. done.
Qed.

Lemma requests_after_startup_witness :
  let w := Dispatch.run true Dispatch.racing_schedule
             (after_startup Dispatch.Started 2) in
  Dispatch.started_threads w = 1%nat ∧
  length (Dispatch.threads w) = 1%nat ∧
  Forall served_pc (Dispatch.handlers w).
Proof.
  apply (requests_after_startup Dispatch.Started 2 Dispatch.racing_schedule).
  reflexivity.
Defined.

(* --------------------------------------------------------------------- *)
(* 28. start_websocket_server                                            *)
(* --------------------------------------------------------------------- *)

Lemma start_repeatedly_started (WS_ENABLED : bool) (ports : list bool)
    (st : server_state) :
  _ws_server_started st = true → start_repeatedly WS_ENABLED ports st = st.
Proof.
  intros Hst. unfold start_repeatedly.
  induction ports as [| p ports IH]; [done |].
  cbn. unfold start_websocket_server at 2. by rewrite Hst.
Qed.

Lemma start_repeatedly_disabled (ports : list bool) (st : server_state) :
  start_repeatedly false ports st = st.
Proof.
  unfold start_repeatedly.
  induction ports as [| p ports IH]; [done |].
  cbn. unfold start_websocket_server at 2. by destruct (_ws_server_started st).
Qed.

(** X17. However often start_websocket_server is called, it starts one
    server thread at most: none when broadcasting is disabled (and the
    flag stays unset), exactly one at the first call otherwise.  A bind
    that fails is not tried again: if the port was taken at the first
    call, no later call brings a server up, even when the port has
    become free. *)
Theorem start_websocket_server_once (WS_ENABLED : bool) (ports : list bool) :
  let st := start_repeatedly WS_ENABLED ports server_initial in
  match ports with
  | [] => st = server_initial
  | port_free :: _ =>
      st = if WS_ENABLED
           then ServerState true 1 (if port_free then 1 else 0)
           else server_initial
  end.
Proof.
  cbn zeta. destruct ports as [| p ports]; [done |].
  destruct WS_ENABLED.
  - unfold start_repeatedly. cbn. by apply start_repeatedly_started.
  - apply start_repeatedly_disabled.
Qed.

(* --------------------------------------------------------------------- *)
(* 29. The properties above, on examples                                 *)
(* --------------------------------------------------------------------- *)

Lemma webhook_payload_shape_witness :
  ∃ d mapped pv iv,
    json_loads request_gc = Ok (VDict d) ∧
    Response 200 success_body = Response 200 success_body ∧
    make_signal (VStr (str "MGC")) (VStr (str "buy")) (VFloat f_1950_5) (VInt 10)
      = VDict [(str "Ticker", mapped);
               (str "Action", field d "action" (VStr NO_ACTION));
               (str "Price", pv); (str "Interval", iv)] ∧
    map_ticker (H := ascii_db) _default_ticker_mapping
      (field d "ticker" (VStr UNKNOWN_TICKER)) = Ok mapped ∧
    (pv = VNone ∨ ∃ f, pv = VFloat f) ∧
    (iv = VNone ∨ ∃ z, iv = VInt z).
Proof.
  apply (@webhook_payload_shape ascii_db _default_ticker_mapping
           (json_loads request_gc) (Response 200 success_body)
           (make_signal (VStr (str "MGC")) (VStr (str "buy"))
              (VFloat f_1950_5) (VInt 10))).
  vm_compute. reflexivity.
Defined.

Lemma webhook_missing_and_null_fields_witness :
  webhook_listener (H := ascii_db) true _default_ticker_mapping (Ok (VDict []))
  = (Response 200 success_body,
     Some (make_signal (VStr UNKNOWN_TICKER) (VStr NO_ACTION) VNone VNone)).
Proof.
  apply (proj1 (@webhook_missing_and_null_fields ascii_db true
                  _default_ticker_mapping [])); reflexivity.
Defined.

Lemma string_fields_are_converted_witness :
  price_value (H := ascii_db) (VStr (str "nan")) = Ok (VFloat FNan) ∧
  interval_value (H := ascii_db) (VStr (str "0")) = Ok (VInt 0).
Proof.
  split.
  - apply (proj1 (@string_fields_are_converted ascii_db (str "nan")) FNan);
      [discriminate | reflexivity].
  - apply (proj2 (@string_fields_are_converted ascii_db (str "0")) 0).
    reflexivity.
Defined.

Lemma load_read_failure_discards_file_witness :
  loaded_table (load_ticker_mapping (H := ascii_db)
                  (FileLines sample_lines (Some read_error)) [])
    = loaded_table (load_ticker_mapping (H := ascii_db) NoFile []).
Proof.
  exact (proj1 (@load_read_failure_discards_file ascii_db sample_lines
                  read_error [])).
Defined.

Lemma load_scalar_env_raises_witness :
  ∃ e, load_ticker_mapping (H := ascii_db) NoFile (str "5") = Raise e ∧
       exc_cls e = ExcTypeError.
Proof.
  apply (@load_scalar_env_raises ascii_db NoFile (str "5") (VInt 5)).
  - reflexivity.
  - exact I.
Defined.

Lemma load_last_line_wins_witness :
  (line_entry (H := ascii_db) (str " a = 2 ")
     = Some (str "A", VStr (str "2")) ∧
   ∀ later t, later ∈ [str "B=3"] →
              line_entry (H := ascii_db) later ≠ Some (str "A", t)) ∧
  ∃ tbl log,
    load_ticker_mapping (H := ascii_db)
      (FileLines ([str "A=1"] ++ str " a = 2 " :: [str "B=3"]) None) []
      = Ok (tbl, log) ∧
    tbl !! str "A" = Some (VStr (str "2")) ∧
    ∀ t, t ≠ [] → t ≠ UNKNOWN_TICKER → upper (H := ascii_db) t = str "A" →
         map_ticker (H := ascii_db) tbl (VStr t) = Ok (VStr (str "2")).
Proof.
  assert (Hlater : ∀ later t, later ∈ [str "B=3"] →
                     line_entry (H := ascii_db) later ≠ Some (str "A", t)).
  { intros later t Hin%list_elem_of_singleton. subst later.
    vm_compute. intros Heq. discriminate Heq. }
  split; [split; [reflexivity | exact Hlater] |].
  apply (@load_last_line_wins ascii_db [str "A=1"] [str "B=3"] (str " a = 2 ")
           (str "A") (VStr (str "2"))).
  - reflexivity.
  - exact Hlater.
Defined.

Lemma load_keeps_default_keys_witness :
  let file := FileLines [str "gc=GOLD"; str "oops"; str "cl=MCL"] None in
  let env := jstr "{'ES':'MES', 'CL':'MCLX'}" in
  let tbl : ticker_table :=
    {[ str "GC" := VStr (str "GOLD"); str "CL" := VStr (str "MCLX");
       str "ES" := VStr (str "MES") ]} in
  let log :=
    [(WARNING, LineWithoutEq 2 (str "oops"));
     (INFO, FileLoaded {[ str "GC" := VStr (str "GOLD");
                          str "CL" := VStr (str "MCL") ]});
     (INFO, EnvLoaded (VDict [(str "ES", VStr (str "MES"));
                              (str "CL", VStr (str "MCLX"))]));
     (INFO, FinalMapping tbl)] in
  load_ticker_mapping (H := ascii_db) file env = Ok (tbl, log) ∧
  (∀ k, is_Some (_default_ticker_mapping !! k) → is_Some (tbl !! k)) ∧
  is_Some (tbl !! str "GC").
Proof.
  intros file env tbl log.
  assert (Hload : load_ticker_mapping (H := ascii_db) file env = Ok (tbl, log)).
  { vm_compute. reflexivity. }
  split; [exact Hload |].
  exact (@load_keeps_default_keys ascii_db file env tbl log Hload).
Defined.

Lemma loaded_entries_are_clean_witness :
  let file :=
    FileLines [str "  cl =  MCL  "; str "# comment"; str "=x"; str "es=M ES "]
      None in
  let tbl : ticker_table :=
    {[ str "GC" := VStr (str "MGC"); str "CL" := VStr (str "MCL");
       str "ES" := VStr (str "M ES") ]} in
  let log :=
    [(WARNING, LineSkipped 3 (str "=x"));
     (INFO, FileLoaded {[ str "CL" := VStr (str "MCL");
                          str "ES" := VStr (str "M ES") ]});
     (INFO, FinalMapping tbl)] in
  (load_ticker_mapping (H := ascii_db) file [] = Ok (tbl, log) ∧
   tbl !! str "ES" = Some (VStr (str "M ES"))) ∧
  str "ES" ≠ [] ∧
  ∃ t, VStr (str "M ES") = VStr t ∧ t ≠ [] ∧ strip t = t.
Proof.
  intros file tbl log.
  assert (Hload : load_ticker_mapping (H := ascii_db) file [] = Ok (tbl, log)).
  { vm_compute. reflexivity. }
  assert (Hk : tbl !! str "ES" = Some (VStr (str "M ES"))).
  { vm_compute. reflexivity. }
  split; [split; [exact Hload | exact Hk] |].
  exact (@loaded_entries_are_clean ascii_db file tbl log (str "ES")
           (VStr (str "M ES")) Hload Hk).
Defined.

Lemma broadcast_twice_witness :
  ∃ st1 st2 evs1 evs2,
    broadcast_signal (flaky_send {[2%nat]}) true sample_signal three_clients
      = Ok st1 ∧
    broadcast_signal (flaky_send {[2%nat]}) true sample_signal st1 = Ok st2 ∧
    io_trace st2 = io_trace three_clients ++ evs1 ++ evs2 ∧
    sent_to <$> evs2
      = elements (_ws_clients three_clients ∖ failed_clients evs1) ∧
    (∀ c, c ∈ failed_clients evs1 → c ∉ sent_to <$> evs2) ∧
    _ws_clients st2
      = _ws_clients three_clients
        ∖ (failed_clients evs1 ∪ failed_clients evs2).
Proof.
  exact (broadcast_twice (flaky_send {[2%nat]}) sample_signal sample_signal
           three_clients).
Defined.
